(** * Teacher's AI Reply Assistant: the two-stage reply pipeline and its UI state

    A shallow embedding of [services/geminiService.ts] (the two model calls),
    of the [App] component's handlers ([useLocalStorage],
    [handleGenerateReply], [handleCopyToClipboard], the tone select and the
    theme toggle), of [constants.ts] and of [types.ts].

    TypeScript types are erased when the program runs, and what the program
    reads from the model or from local storage is the result of [JSON.parse],
    of static type [any].  Such values are therefore modelled as JavaScript
    values ([json], and [value] when [undefined] is possible), not as the
    records their annotations promise. *)

From Stdlib Require Import ZArith Ascii String List Bool Lia DecimalString.
From stdpp Require Import base option list strings gmap.

Set Warnings "-register-all".
Local Open Scope string_scope.
Local Open Scope list_scope.

(** ** JavaScript values *)

(** What [JSON.parse] can return.  A number is kept as the decimal
    [m * 10^e]; an object as the list of its own properties in insertion
    order, each key once. *)
Inductive json : Type :=
| JNull
| JBool (b : bool)
| JNum (m e : Z)
| JStr (s : string)
| JArr (items : list json)
| JObj (fields : list (string * json)).

(** A value that may also be [undefined] ([None]). *)
Definition value : Type := option json.
Definition undefined : value := None.

Definition json_of_nat (n : nat) : json := JNum (Z.of_nat n) 0.

(** ToBoolean. *)
Definition truthy_json (j : json) : bool :=
  match j with
  | JNull => false
  | JBool b => b
  | JNum m _ => negb (m =? 0)%Z
  | JStr s => negb (String.eqb s "")
  | JArr _ | JObj _ => true
  end.

Definition truthy (v : value) : bool :=
  match v with
  | None => false
  | Some j => truthy_json j
  end.

Definition truthy_option {A} (o : option A) : bool :=
  match o with Some _ => true | None => false end.

(** [a || b] on values. *)
Definition js_or (a b : value) : value := if truthy a then a else b.

Fixpoint lookup_field (k : string) (fs : list (string * json)) : value :=
  match fs with
  | [] => None
  | (k', v) :: fs' => if String.eqb k k' then Some v else lookup_field k fs'
  end.

(** [{...o, k: v}] and [o[k] = v]: an existing key keeps its place. *)
Fixpoint set_field (k : string) (v : json) (fs : list (string * json))
  : list (string * json) :=
  match fs with
  | [] => [(k, v)]
  | (k', v') :: fs' =>
      if String.eqb k k' then (k, v) :: fs' else (k', v') :: set_field k v fs'
  end.

(** ** Errors and completions *)

Inductive ErrorName :=
| TypeError | SyntaxError | ApiError | PlainError | DOMException.

(** A thrown [Error] object: its class and its [message]. *)
Record JsError := mkError { err_name : ErrorName; message : string }.

Inductive Completion (A : Type) : Type :=
| Normal (a : A)
| Throw (e : JsError).
Arguments Normal {A} a.
Arguments Throw {A} e.

Definition cannot_read (k : string) : JsError :=
  mkError TypeError ("Cannot read properties of null (reading '" ++ k ++ "')").

Definition cannot_read_undefined (k : string) : JsError :=
  mkError TypeError
    ("Cannot read properties of undefined (reading '" ++ k ++ "')").

(** What [JSON.parse] throws on text that is not JSON. *)
Definition syntax_error : JsError :=
  mkError SyntaxError "Unexpected token in JSON".

(** [j.k] for the property names the program reads ([messageType],
    [sentiment], [sentences], [length], [toneDescription], [name], [id],
    [platform], [teacherName], [theme]); none of them is inherited from a
    prototype.  Reading a property of [null] throws.  The length of a
    string is counted in bytes here; the program only compares it with
    0. *)
Definition get_prop (j : json) (k : string) : Completion value :=
  match j with
  | JNull => Throw (cannot_read k)
  | JObj fs => Normal (lookup_field k fs)
  | JArr l =>
      Normal (if String.eqb k "length" then Some (json_of_nat (length l))
              else None)
  | JStr s =>
      Normal (if String.eqb k "length"
              then Some (json_of_nat (String.length s)) else None)
  | JBool _ | JNum _ _ => Normal None
  end.

(** [v.k] when [v] may be [undefined]. *)
Definition get_prop_value (v : value) (k : string) : Completion value :=
  match v with
  | None => Throw (cannot_read_undefined k)
  | Some j => get_prop j k
  end.

(** [v?.k] *)
Definition get_prop_opt (v : value) (k : string) : value :=
  match v with
  | None | Some JNull => None
  | Some j => match get_prop j k with Normal r => r | Throw _ => None end
  end.

(** [v === 0] *)
Definition is_zero (v : value) : bool :=
  match v with
  | Some (JNum m _) => (m =? 0)%Z
  | _ => false
  end.

(** What ToString throws on an object that has no primitive value. *)
Definition cannot_convert : JsError :=
  mkError TypeError "Cannot convert object to primitive value".

(** Whether ToString returns on a parsed value.  On an object it calls the
    [toString] property: the inherited one returns, but an own property
    [toString] hides it, and a parsed value is never callable; [valueOf]
    then gives no primitive either (an own one is not callable, the
    inherited one returns the object), and the conversion throws.  On an
    array it joins the conversions of the elements, taking [null] as the
    empty string.  [null], booleans, numbers and strings always convert. *)
Fixpoint to_string_returns (j : json) : bool :=
  match j with
  | JObj fs => negb (truthy_option (lookup_field "toString" fs))
  | JArr l => forallb to_string_returns l
  | JNull | JBool _ | JNum _ _ | JStr _ => true
  end.

(** [`${v}`]: the conversion that a template literal applies to a
    substitution.  The text is not kept, only whether there is one. *)
Definition interpolate (v : value) : Completion value :=
  match v with
  | None => Normal v
  | Some j => if to_string_returns j then Normal v else Throw cannot_convert
  end.

(** Sequencing of completions. *)
Definition and_then {A B} (c : Completion A) (k : A -> Completion B)
  : Completion B :=
  match c with
  | Normal a => k a
  | Throw e => Throw e
  end.

(** ** types.ts *)

Inductive MessageType :=
| NEW_STUDENT | CURRENT_STUDENT | ABSENT_STUDENT | RESCHEDULE | PAYMENT
| GENERAL.

Inductive ReplyTone :=
| FORMAL | FRIENDLY | WARM_MOTIVATIONAL | BRIEF_DIRECT | ISLAMIC | FOR_KIDS.

Inductive IntegrationPlatform := WHATSAPP | EMAIL | GENERIC.

Inductive Sentiment :=
| POSITIVE | NEUTRAL | NEGATIVE | APOLOGETIC | ENTHUSIASTIC | INQUIRY.

(** The string each member of a string enum stands for when the program
    runs. *)
Definition MessageType_value (m : MessageType) : string :=
  match m with
  | NEW_STUDENT => "New student inquiry"
  | CURRENT_STUDENT => "Current student"
  | ABSENT_STUDENT => "Absent student"
  | RESCHEDULE => "Reschedule request"
  | PAYMENT => "Payment inquiry"
  | GENERAL => "General question"
  end.

Definition ReplyTone_value (t : ReplyTone) : string :=
  match t with
  | FORMAL => "Professional"
  | FRIENDLY => "Friendly"
  | WARM_MOTIVATIONAL => "Warm & Motivational"
  | BRIEF_DIRECT => "Brief & Direct"
  | ISLAMIC => "Islamic (Spiritual)"
  | FOR_KIDS => "For Kids"
  end.

Definition IntegrationPlatform_value (p : IntegrationPlatform) : string :=
  match p with
  | WHATSAPP => "WhatsApp"
  | EMAIL => "Email"
  | GENERIC => "Generic Chat"
  end.

Definition Sentiment_value (s : Sentiment) : string :=
  match s with
  | POSITIVE => "Positive"
  | NEUTRAL => "Neutral"
  | NEGATIVE => "Negative"
  | APOLOGETIC => "Apologetic"
  | ENTHUSIASTIC => "Enthusiastic"
  | INQUIRY => "Inquiry"
  end.

(** The members of each enum in declaration order, and [Object.values]. *)
Definition MessageType_members : list MessageType :=
  [NEW_STUDENT; CURRENT_STUDENT; ABSENT_STUDENT; RESCHEDULE; PAYMENT; GENERAL].
Definition ReplyTone_members : list ReplyTone :=
  [FORMAL; FRIENDLY; WARM_MOTIVATIONAL; BRIEF_DIRECT; ISLAMIC; FOR_KIDS].
Definition IntegrationPlatform_members : list IntegrationPlatform :=
  [WHATSAPP; EMAIL; GENERIC].
Definition Sentiment_members : list Sentiment :=
  [POSITIVE; NEUTRAL; NEGATIVE; APOLOGETIC; ENTHUSIASTIC; INQUIRY].

Definition MessageType_values : list string :=
  map MessageType_value MessageType_members.
Definition ReplyTone_values : list string :=
  map ReplyTone_value ReplyTone_members.
Definition IntegrationPlatform_values : list string :=
  map IntegrationPlatform_value IntegrationPlatform_members.
Definition Sentiment_values : list string :=
  map Sentiment_value Sentiment_members.

(** [GenerationProgress]: every field is optional. *)
Record GenerationProgress := mkProgress {
  reading : option bool;
  detecting : option bool;
  drafting : option bool;
  translating : option bool;
  done_ : option bool;
  error_ : option string
}.

Definition empty_progress : GenerationProgress :=
  mkProgress None None None None None None.

(** ** The effects of the service module

    A call of an [async] function is modelled by the events it causes, in
    order, and by how it settles: [Normal] for a fulfilled promise, [Throw]
    for a rejected one.  [await] is sequencing. *)

(** The response schemas handed to the model ([Type.STRING], [Type.ARRAY],
    [Type.OBJECT]). *)
Inductive Schema :=
| STRING (enum : option (list string)) (description : option string)
| ARRAY (items : Schema)
| OBJECT (properties : list (string * Schema)) (required : list string).

(** Whether a value conforms to a schema: a string among the enumerated
    ones, an array of conforming items, an object that has every required
    property and whose declared properties conform.  Further properties
    are allowed, as they are for a TypeScript interface. *)
Fixpoint conforms (sch : Schema) (j : json) {struct sch} : bool :=
  match sch, j with
  | STRING enum _, JStr x =>
      match enum with
      | None => true
      | Some allowed => existsb (String.eqb x) allowed
      end
  | ARRAY items, JArr l => forallb (conforms items) l
  | OBJECT properties required, JObj fs =>
      forallb (fun k => truthy_option (lookup_field k fs)) required
      && (fix each (ps : list (string * Schema)) : bool :=
            match ps with
            | [] => true
            | (k, sk) :: ps' =>
                match lookup_field k fs with
                | None => true
                | Some v => conforms sk v
                end && each ps'
            end) properties
  | _, _ => false
  end.

(** The prompt of a request.  The template literal is kept as the tuple of
    the values it interpolates, which determine its text. *)
Inductive Prompt :=
| AnalysisPrompt (studentMessage : string)
| ReplyPrompt (teacherName platform studentName : value)
    (studentMessage : string) (messageType sentiment tone : value).

Record GenerateContentConfig := mkConfig {
  responseMimeType : string;
  responseSchema : Schema
}.

Record GenerateContentParameters := mkRequest {
  model : string;
  contents : Prompt;
  config : GenerateContentConfig
}.

(** How [ai.models.generateContent] settles: it rejects, or it fulfils with a
    response whose [text] is a string or [undefined]. *)
Inductive ApiOutcome :=
| Rejected (e : JsError)
| Fulfilled (text : option string).

Inductive SvcEvent :=
| ApiCall (req : GenerateContentParameters)
| ConsoleError (label : string) (e : JsError).

Definition Svc (A : Type) : Type := list SvcEvent * Completion A.

Definition svc_ret {A} (a : A) : Svc A := ([], Normal a).

Definition svc_bind {A B} (m : Svc A) (k : A -> Svc B) : Svc B :=
  match m with
  | (t, Normal a) => let (t', r) := k a in (t ++ t', r)
  | (t, Throw e) => (t, Throw e)
  end.

Definition svc_throw {A} (e : JsError) : Svc A := ([], Throw e).

Definition svc_lift {A} (c : Completion A) : Svc A := ([], c).

(** [try { body } catch (error) { handler }] *)
Definition svc_try_catch {A} (body : Svc A) (handler : JsError -> Svc A)
  : Svc A :=
  match body with
  | (t, Normal a) => (t, Normal a)
  | (t, Throw e) => let (t', r) := handler e in (t ++ t', r)
  end.

Definition console_error (label : string) (e : JsError) : Svc unit :=
  ([ConsoleError label e], Normal tt).

Declare Scope svc_scope.
Delimit Scope svc_scope with svc.
Notation "'let*' x ':=' m 'in' k" := (svc_bind m (fun x => k))
  (at level 10, x name, m at level 100, k at level 200) : svc_scope.
Notation "'run' m 'in' k" := (svc_bind m (fun _ => k))
  (at level 10, m at level 100, k at level 200) : svc_scope.

(** The one-character string holding a double quote. *)
Definition dquote : string := String (ascii_of_nat 34) EmptyString.

(** ** services/geminiService.ts *)

Module geminiService.

Definition contextAnalysisSchema : Schema :=
  OBJECT
    [ ("messageType", STRING (Some MessageType_values) None);
      ("sentiment", STRING (Some Sentiment_values) None);
      ("detectedLanguage", STRING (Some ["en"; "ar"; "unknown"]) None) ]
    ["messageType"; "sentiment"; "detectedLanguage"].

Definition replyGenerationSchema : Schema :=
  OBJECT
    [ ("sentences",
       ARRAY (OBJECT
         [ ("englishSentence",
            STRING None (Some "A single sentence of the reply in English."));
           ("arabicSentence",
            STRING None (Some
              "The direct, equivalent translation of that single sentence in Arabic.")) ]
         ["englishSentence"; "arabicSentence"]));
      ("toneDescription",
       STRING None (Some
         ("A short, friendly description of the reply's tone, starting with an emoji. E.g., "
          ++ dquote ++ "⭐ Warm & Encouraging" ++ dquote ++ ".")%string)) ]
    ["sentences"; "toneDescription"].

(** The value [analyzeContext] falls back to. *)
Definition fallback_context : json :=
  JObj [ ("messageType", JStr (MessageType_value GENERAL));
         ("sentiment", JStr (Sentiment_value NEUTRAL));
         ("detectedLanguage", JStr "unknown") ].

(** [GeneratedReply], with the fields as they are when the program runs. *)
Record GeneratedReply := mkReply {
  sentences : value;
  toneDescription : value
}.

Definition empty_reply_error : JsError :=
  mkError PlainError "AI returned an empty reply.".

Definition generic_reply_error : JsError :=
  mkError PlainError
    "Failed to generate a reply. The model may be unable to process this request. Please try again or rephrase.".

Section Service.

(** The collaborators of the module: the hosted model, [JSON.parse]
    ([None] when it throws a [SyntaxError]) and [String.prototype.trim]. *)
Variable generateContent : GenerateContentParameters -> ApiOutcome.
Variable JSON_parse : string -> option json.
Variable trim : string -> string.

Local Open Scope svc_scope.

(** [await ai.models.generateContent(req)], then [response.text]. *)
Definition await_generateContent (req : GenerateContentParameters)
  : Svc (option string) :=
  ([ApiCall req],
   match generateContent req with
   | Rejected e => Throw e
   | Fulfilled text => Normal text
   end).

(** [text.trim()] on [string | undefined]. *)
Definition text_trim (text : option string) : Svc string :=
  match text with
  | None => svc_throw (cannot_read_undefined "trim")
  | Some s => svc_ret (trim s)
  end.

Definition parse (s : string) : Svc json :=
  match JSON_parse s with
  | None => svc_throw syntax_error
  | Some j => svc_ret j
  end.

Definition analysis_request (studentMessage : string)
  : GenerateContentParameters :=
  {| model := "gemini-2.5-flash";
     contents := AnalysisPrompt studentMessage;
     config := {| responseMimeType := "application/json";
                  responseSchema := contextAnalysisSchema |} |}.

Definition analyzeContext (studentMessage : string) : Svc json :=
  svc_try_catch
    (let* text := await_generateContent (analysis_request studentMessage) in
     let* trimmed := text_trim text in
     let* parsed := parse trimmed in
     svc_ret parsed)
    (fun error =>
       run console_error "Error analyzing context:" error in
       svc_ret fallback_context).

(** The prompt of the reply request: the template literal evaluates its
    substitutions from first to last and converts each to a string as it
    goes.  Reading [context.messageType] throws on [null]; a conversion
    throws on a value that has no string form.  [platform] and
    [teacherName] occur a second time further down, where their
    conversions have already returned once. *)
Definition reply_prompt (studentMessage : string) (context : json)
    (tone platform teacherName student : value) : Completion Prompt :=
  and_then (interpolate teacherName) (fun teacherName =>
  and_then (interpolate platform) (fun platform =>
  and_then (interpolate (js_or (get_prop_opt student "name")
                           (Some (JStr "student")))) (fun studentName =>
  and_then (get_prop context "messageType") (fun messageType =>
  and_then (interpolate messageType) (fun messageType =>
  and_then (get_prop context "sentiment") (fun sentiment =>
  and_then (interpolate sentiment) (fun sentiment =>
  and_then (interpolate tone) (fun tone =>
  Normal (ReplyPrompt teacherName platform studentName studentMessage
            messageType sentiment tone))))))))).

Definition reply_request (prompt : Prompt) : GenerateContentParameters :=
  {| model := "gemini-2.5-flash";
     contents := prompt;
     config := {| responseMimeType := "application/json";
                  responseSchema := replyGenerationSchema |} |}.

(** [!parsedResponse.sentences || parsedResponse.sentences.length === 0],
    once [parsedResponse.sentences] has been read. *)
Definition no_sentences (the_sentences : value) : Completion bool :=
  if truthy the_sentences then
    match get_prop_value the_sentences "length" with
    | Throw e => Throw e
    | Normal len => Normal (is_zero len)
    end
  else Normal true.

(** The [try] block of [generateBilingualReply]. *)
Definition reply_attempt (studentMessage : string) (context : json)
    (tone platform teacherName student : value) : Svc GeneratedReply :=
  let* prompt :=
    svc_lift (reply_prompt studentMessage context tone platform
                teacherName student) in
  let* text := await_generateContent (reply_request prompt) in
  let* jsonText := text_trim text in
  let* parsedResponse := parse jsonText in
  let* the_sentences := svc_lift (get_prop parsedResponse "sentences") in
  let* empty := svc_lift (no_sentences the_sentences) in
  if (empty : bool) then svc_throw empty_reply_error
  else
    let* the_tone := svc_lift (get_prop parsedResponse "toneDescription") in
    svc_ret {| sentences := the_sentences;
               toneDescription :=
                 js_or the_tone (Some (JStr "⭐ Balanced")) |}.

Definition generateBilingualReply (studentMessage : string) (context : json)
    (tone platform teacherName student : value) : Svc GeneratedReply :=
  svc_try_catch
    (reply_attempt studentMessage context tone platform teacherName student)
    (fun error =>
       run console_error "Error generating bilingual reply:" error in
       svc_throw generic_reply_error).

End Service.

End geminiService.

(** ** constants.ts *)

Record option_entry := mkOption { value_ : string; label : string }.

Definition TONE_OPTIONS : list option_entry :=
  [ mkOption (ReplyTone_value FRIENDLY) "😊 Friendly";
    mkOption (ReplyTone_value WARM_MOTIVATIONAL) "☀️ Warm & Motivational";
    mkOption (ReplyTone_value FORMAL) "👔 Professional";
    mkOption (ReplyTone_value BRIEF_DIRECT) "⚡ Brief & Direct";
    mkOption (ReplyTone_value ISLAMIC) "🕌 Islamic (Spiritual)";
    mkOption (ReplyTone_value FOR_KIDS) "🧸 For Kids" ].

Definition PLATFORM_OPTIONS : list option_entry :=
  [ mkOption (IntegrationPlatform_value WHATSAPP) "WhatsApp";
    mkOption (IntegrationPlatform_value EMAIL) "Email";
    mkOption (IntegrationPlatform_value GENERIC) "Generic Chat" ].

Definition SMART_TIPS : list string :=
  [ "Keep replies short and kind — students appreciate simplicity.";
    "Use the student’s name when possible for a personal touch.";
    "Encourage consistency instead of perfection.";
    "A positive emoji can make your message feel more welcoming. 😊";
    "Always double-check the time zone when scheduling with international students.";
    "For apologetic students, a warm and reassuring tone works best.";
    "Remember to follow up a few days after a rescheduled class to check in." ].

(** ** App.tsx *)

Module App.

(** The state of the [App] component that the handlers below read or
    write.  [settings] and [students] come from local storage. *)
Record AppState := mkState {
  settings : json;
  students : json;
  studentMessage : string;
  selectedStudentId : option string;
  messageType : value;
  replyTone : string;
  detectedContext : json;
  isLoading : bool;
  progress : GenerationProgress;
  error : option string;
  replySentences : value;
  toneDescription : value;
  currentTip : value;
  copyStatus : option (string * string)
}.

Definition with_messageType (v : value) (s : AppState) : AppState :=
  mkState (settings s) (students s) (studentMessage s) (selectedStudentId s)
    v (replyTone s) (detectedContext s) (isLoading s) (progress s)
    (error s) (replySentences s) (toneDescription s) (currentTip s)
    (copyStatus s).

Definition with_replyTone (v : string) (s : AppState) : AppState :=
  mkState (settings s) (students s) (studentMessage s) (selectedStudentId s)
    (messageType s) v (detectedContext s) (isLoading s) (progress s)
    (error s) (replySentences s) (toneDescription s) (currentTip s)
    (copyStatus s).

Definition with_detectedContext (v : json) (s : AppState) : AppState :=
  mkState (settings s) (students s) (studentMessage s) (selectedStudentId s)
    (messageType s) (replyTone s) v (isLoading s) (progress s)
    (error s) (replySentences s) (toneDescription s) (currentTip s)
    (copyStatus s).

Definition with_isLoading (v : bool) (s : AppState) : AppState :=
  mkState (settings s) (students s) (studentMessage s) (selectedStudentId s)
    (messageType s) (replyTone s) (detectedContext s) v (progress s)
    (error s) (replySentences s) (toneDescription s) (currentTip s)
    (copyStatus s).

Definition with_progress (v : GenerationProgress) (s : AppState) : AppState :=
  mkState (settings s) (students s) (studentMessage s) (selectedStudentId s)
    (messageType s) (replyTone s) (detectedContext s) (isLoading s) v
    (error s) (replySentences s) (toneDescription s) (currentTip s)
    (copyStatus s).

Definition with_error (v : option string) (s : AppState) : AppState :=
  mkState (settings s) (students s) (studentMessage s) (selectedStudentId s)
    (messageType s) (replyTone s) (detectedContext s) (isLoading s)
    (progress s) v (replySentences s) (toneDescription s) (currentTip s)
    (copyStatus s).

Definition with_replySentences (v : value) (s : AppState) : AppState :=
  mkState (settings s) (students s) (studentMessage s) (selectedStudentId s)
    (messageType s) (replyTone s) (detectedContext s) (isLoading s)
    (progress s) (error s) v (toneDescription s) (currentTip s)
    (copyStatus s).

Definition with_toneDescription (v : value) (s : AppState) : AppState :=
  mkState (settings s) (students s) (studentMessage s) (selectedStudentId s)
    (messageType s) (replyTone s) (detectedContext s) (isLoading s)
    (progress s) (error s) (replySentences s) v (currentTip s)
    (copyStatus s).

Definition with_currentTip (v : value) (s : AppState) : AppState :=
  mkState (settings s) (students s) (studentMessage s) (selectedStudentId s)
    (messageType s) (replyTone s) (detectedContext s) (isLoading s)
    (progress s) (error s) (replySentences s) (toneDescription s) v
    (copyStatus s).

Definition with_copyStatus (v : option (string * string)) (s : AppState)
  : AppState :=
  mkState (settings s) (students s) (studentMessage s) (selectedStudentId s)
    (messageType s) (replyTone s) (detectedContext s) (isLoading s)
    (progress s) (error s) (replySentences s) (toneDescription s)
    (currentTip s) v.

(** The default of [useLocalStorage('appSettings_v3', ...)]. *)
Definition default_settings : json :=
  JObj [ ("teacherName", JStr "Teacher");
         ("signature", JStr "");
         ("platform", JStr (IntegrationPlatform_value WHATSAPP));
         ("theme", JStr "dark") ].

(** The state of the first render, given what local storage held. *)
Definition initial_state (stored_settings stored_students : json) : AppState :=
  {| settings := stored_settings;
     students := stored_students;
     studentMessage := "";
     selectedStudentId := None;
     messageType := Some (JStr (MessageType_value NEW_STUDENT));
     replyTone := ReplyTone_value FRIENDLY;
     detectedContext := JNull;
     isLoading := false;
     progress := empty_progress;
     error := None;
     replySentences := Some (JArr []);
     toneDescription := Some (JStr "");
     currentTip := Some (JStr "");
     copyStatus := None |}.

(** *** The effects of a handler

    A handler is run from the state of the render that created it; the
    state setters it calls are applied in the order of the calls.  Every
    event is recorded with the state at the time it happens. *)
Inductive AppEvent :=
| ServiceEvent (e : SvcEvent)
| AnalyzeContextCalled (studentMessage : string)
| AnalyzeContextSettled (r : Completion json)
| GenerateBilingualReplyCalled (studentMessage : string) (context : json)
    (tone platform teacherName student : value)
| GenerateBilingualReplySettled (r : Completion geminiService.GeneratedReply)
| SetProgress (p : GenerationProgress)
| SetTimeout (ms : nat)
| SpeechCancel
| SpeechSpeak (text lang : string).

Definition Trace : Type := list (AppEvent * AppState).

Definition App (A : Type) : Type := AppState -> Trace * AppState * Completion A.

Definition app_ret {A} (a : A) : App A := fun s => ([], s, Normal a).

Definition app_bind {A B} (m : App A) (k : A -> App B) : App B :=
  fun s =>
    match m s with
    | (t, s', Normal a) =>
        match k a s' with (t', s'', r) => (t ++ t', s'', r) end
    | (t, s', Throw e) => (t, s', Throw e)
    end.

Definition app_lift {A} (c : Completion A) : App A := fun s => ([], s, c).

Definition app_try_catch {A} (body : App A) (handler : JsError -> App A)
  : App A :=
  fun s =>
    match body s with
    | (t, s', Normal a) => (t, s', Normal a)
    | (t, s', Throw e) =>
        match handler e s' with (t', s'', r) => (t ++ t', s'', r) end
    end.

(** [try { body } finally { cleanup }], for a [cleanup] that does not
    throw. *)
Definition app_finally {A} (body : App A) (cleanup : App unit) : App A :=
  fun s =>
    match body s with
    | (t, s', r) =>
        match cleanup s' with (t', s'', _) => (t ++ t', s'', r) end
    end.

Definition emit (e : AppEvent) : App unit := fun s => ([(e, s)], s, Normal tt).

Definition modify (f : AppState -> AppState) : App unit :=
  fun s => ([], f s, Normal tt).

Declare Scope app_scope.
Delimit Scope app_scope with app.
Notation "'let*' x ':=' m 'in' k" := (app_bind m (fun x => k))
  (at level 10, x name, m at level 100, k at level 200) : app_scope.
Notation "'run' m 'in' k" := (app_bind m (fun _ => k))
  (at level 10, m at level 100, k at level 200) : app_scope.

Local Open Scope app_scope.

Definition setIsLoading (v : bool) : App unit := modify (with_isLoading v).
Definition setError (v : option string) : App unit := modify (with_error v).
Definition setReplySentences (v : value) : App unit :=
  modify (with_replySentences v).
Definition setToneDescription (v : value) : App unit :=
  modify (with_toneDescription v).
Definition setDetectedContext (v : json) : App unit :=
  modify (with_detectedContext v).
Definition setMessageType (v : value) : App unit :=
  modify (with_messageType v).
Definition setReplyTone (v : string) : App unit := modify (with_replyTone v).
Definition setCurrentTip (v : value) : App unit := modify (with_currentTip v).
Definition setCopyStatus (v : option (string * string)) : App unit :=
  modify (with_copyStatus v).

(** [setProgress(f)] with an updater function; [setProgress(p)] is
    [setProgress (fun _ => p)]. *)
Definition setProgress (f : GenerationProgress -> GenerationProgress)
  : App unit :=
  fun s =>
    let p := f (progress s) in
    let s' := with_progress p s in
    ([(SetProgress p, s')], s', Normal tt).

(** *** useLocalStorage *)

(** [window.localStorage]: the stored items; whether access to the storage
    is refused (every call throws a [SecurityError]); and how many bytes of
    keys and values it holds at most (a write beyond that throws a
    [QuotaExceededError]). *)
Record Storage := mkStorage {
  items : gmap string string;
  denied : bool;
  quota : N
}.

Definition security_error : JsError :=
  mkError DOMException "The operation is insecure.".
Definition quota_error : JsError :=
  mkError DOMException "The quota has been exceeded.".

Definition used (m : gmap string string) : N :=
  map_fold
    (fun k v acc =>
       N.of_nat (String.length k) + N.of_nat (String.length v) + acc)%N
    0%N m.

Definition getItem (st : Storage) (key : string) : Completion (option string) :=
  if denied st then Throw security_error else Normal (items st !! key).

Definition setItem (st : Storage) (key v : string) : Completion Storage :=
  if denied st then Throw security_error
  else
    let m := <[key := v]> (items st) in
    if (used m <=? quota st)%N
    then Normal (mkStorage m (denied st) (quota st))
    else Throw quota_error.

(** [React.SetStateAction<T>]: a new value, or a function of the old one. *)
Inductive SetStateAction :=
| NewValue (v : json)
| Updater (f : json -> Completion json).

Section UseLocalStorage.

Variable JSON_parse : string -> option json.
Variable JSON_stringify : json -> string.

(** The initializer of [storedValue]: what a render after a reload
    starts from, with what was logged to the console. *)
Definition useLocalStorage_init (key : string) (initialValue : json)
    (st : Storage) : list JsError * json :=
  match getItem st key with
  | Throw e => ([e], initialValue)
  | Normal item =>
      match item with
      | None => ([], initialValue)
      | Some text =>
          if String.eqb text "" then ([], initialValue)
          else match JSON_parse text with
               | Some v => ([], v)
               | None => ([syntax_error], initialValue)
               end
      end
  end.

(** [setValue(value)]: the logged errors, the new [storedValue] and the
    storage afterwards. *)
Definition setValue (key : string) (action : SetStateAction)
    (storedValue : json) (st : Storage) : list JsError * json * Storage :=
  let valueToStore :=
    match action with
    | Updater f => f storedValue
    | NewValue v => Normal v
    end in
  match valueToStore with
  | Throw e => ([e], storedValue, st)
  | Normal v =>
      match setItem st key (JSON_stringify v) with
      | Normal st' => ([], v, st')
      | Throw e => ([e], v, st)
      end
  end.

End UseLocalStorage.

(** The own enumerable properties that [{...j}] copies. *)
Definition index_key (i : nat) : string :=
  NilZero.string_of_uint (Nat.to_uint i).

Definition own_props (j : json) : list (string * json) :=
  match j with
  | JObj fs => fs
  | JArr l => imap (fun i v => (index_key i, v)) l
  | JStr s =>
      imap (fun i c => (index_key i, JStr (String c EmptyString)))
        (list_ascii_of_string s)
  | JNull | JBool _ | JNum _ _ => []
  end.

(** [v === 'dark'] *)
Definition is_dark (v : value) : bool :=
  match v with
  | Some (JStr t) => String.eqb t "dark"
  | _ => false
  end.

(** The updater of the theme button:
    [s => ({...s, theme: s.theme === 'dark' ? 'light' : 'dark'})]. *)
Definition toggle_theme (s : json) : Completion json :=
  match get_prop s "theme" with
  | Throw e => Throw e
  | Normal theme =>
      Normal (JObj (set_field "theme"
                      (JStr (if is_dark theme then "light" else "dark"))
                      (own_props s)))
  end.

Definition settings_key : string := "appSettings_v3".

(** *** The handlers *)

(** [a === b] for a value [a] and a [b : string | null]. *)
Definition strict_eq_id (a : value) (b : option string) : bool :=
  match a, b with
  | Some (JStr x), Some y => String.eqb x y
  | Some JNull, None => true
  | _, _ => false
  end.

(** [l.find(s => s.id === selectedStudentId)] on the elements of an array. *)
Fixpoint find_by_id (l : list json) (selected : option string)
  : Completion value :=
  match l with
  | [] => Normal undefined
  | s :: l' =>
      match get_prop s "id" with
      | Throw e => Throw e
      | Normal id =>
          if strict_eq_id id selected then Normal (Some s)
          else find_by_id l' selected
      end
  end.

(** [students.find(...)]: only an array has a [find] method. *)
Definition students_find (the_students : json) (selected : option string)
  : Completion value :=
  match the_students with
  | JArr l => find_by_id l selected
  | JNull => Throw (cannot_read "find")
  | JBool _ | JNum _ _ | JStr _ | JObj _ =>
      Throw (mkError TypeError "students.find is not a function")
  end.

(** [a || b] on strings. *)
Definition or_string (a b : string) : string :=
  if String.eqb a "" then b else a.

(** [message || studentMessage]: the message a call of
    [handleGenerateReply] works on. *)
Definition finalMessage_of (message_arg : option string) (s : AppState)
  : string :=
  match message_arg with
  | Some m => or_string m (studentMessage s)
  | None => studentMessage s
  end.

Section Handlers.

Variable generateContent : GenerateContentParameters -> ApiOutcome.
Variable JSON_parse : string -> option json.
Variable trim : string -> string.
(** [Math.floor(Math.random() * n)] *)
Variable random_index : nat -> nat.
(** [navigator.clipboard]: [None] where the browser offers no Clipboard
    API (it is [undefined] outside secure contexts); otherwise how the
    promise of [writeText] settles. *)
Variable navigator_clipboard : option (string -> Completion unit).

(** [await analyzeContext(m)] *)
Definition await_analyzeContext (m : string) : App json :=
  fun s =>
    let (t, r) :=
      geminiService.analyzeContext generateContent JSON_parse trim m in
    ((AnalyzeContextCalled m, s)
       :: ((fun e => (ServiceEvent e, s)) <$> t)
       ++ [(AnalyzeContextSettled r, s)],
     s, r).

(** [await generateBilingualReply(m, context, tone, platform, name, st)] *)
Definition await_generateBilingualReply (m : string) (context : json)
    (tone platform teacherName student : value)
  : App geminiService.GeneratedReply :=
  fun s =>
    let (t, r) :=
      geminiService.generateBilingualReply generateContent JSON_parse trim
        m context tone platform teacherName student in
    ((GenerateBilingualReplyCalled m context tone platform teacherName
        student, s)
       :: ((fun e => (ServiceEvent e, s)) <$> t)
       ++ [(GenerateBilingualReplySettled r, s)],
     s, r).

Definition pick_tip : value :=
  JStr <$> SMART_TIPS !! random_index (length SMART_TIPS).

(** The handler as created by the render whose state is [closure]. *)
Definition handleGenerateReply (message_arg : option string) : App unit :=
  fun closure =>
    let finalMessage := finalMessage_of message_arg closure in
    (if String.eqb (trim finalMessage) ""
     then setError (Some "Please enter a student message.")
     else
       run setIsLoading true in
       run setError None in
       run setReplySentences (Some (JArr [])) in
       run setToneDescription (Some (JStr "")) in
       run setProgress (fun _ =>
             mkProgress (Some true) None None None None None) in
       app_finally
         (app_try_catch
            (run setProgress (fun p =>
                   mkProgress (Some false) (Some true) (drafting p)
                     (translating p) (done_ p) (error_ p)) in
             let* context := await_analyzeContext finalMessage in
             run setDetectedContext context in
             let* detectedType := app_lift (get_prop context "messageType") in
             run setMessageType detectedType in
             run setProgress (fun p =>
                   mkProgress (reading p) (Some false) (Some true)
                     (translating p) (done_ p) (error_ p)) in
             let* selectedStudent :=
               app_lift (students_find (students closure)
                           (selectedStudentId closure)) in
             let* platform := app_lift (get_prop (settings closure) "platform") in
             let* teacherName :=
               app_lift (get_prop (settings closure) "teacherName") in
             let* result :=
               await_generateBilingualReply finalMessage context
                 (Some (JStr (replyTone closure))) platform teacherName
                 selectedStudent in
             run setProgress (fun p =>
                   mkProgress (reading p) (detecting p) (Some false)
                     (translating p) (Some true) (error_ p)) in
             run setReplySentences (geminiService.sentences result) in
             run setToneDescription (geminiService.toneDescription result) in
             setCurrentTip pick_tip)
            (fun e =>
               run setError
                 (Some (or_string (message e)
                          "An unexpected error occurred.")) in
               setProgress (fun _ =>
                 mkProgress None None None None None (Some (message e)))))
         (setIsLoading false)) closure.

(** [handleCopyToClipboard].  The callback given to [then] runs once the
    write has succeeded; a failed write leaves a rejected promise that
    nothing handles, and the handler has returned by then. *)
Definition handleCopyToClipboard (text id lang : string) : App unit :=
  match navigator_clipboard with
  | None => app_lift (Throw (cannot_read_undefined "writeText"))
  | Some writeText =>
      match writeText text with
      | Normal _ =>
          run setCopyStatus (Some (id, lang)) in
          emit (SetTimeout 2000)
      | Throw _ => app_ret tt
      end
  end.

(** [handleReadAloud], which checks ['speechSynthesis' in window] before
    it uses the API. *)
Definition handleReadAloud (speechSynthesis_in_window : bool)
    (text langCode : string) : App unit :=
  if speechSynthesis_in_window then
    run emit SpeechCancel in
    emit (SpeechSpeak text langCode)
  else setError (Some "Text-to-speech is not supported by your browser.").

End Handlers.

(** The [onChange] handler of the tone select:
    [e => setReplyTone(e.target.value as ReplyTone)]. *)
Definition onReplyToneChange (target_value : string) : App unit :=
  setReplyTone target_value.

(** The [value]s of the [option] elements the tone select renders. *)
Definition tone_select_values : list string := map value_ TONE_OPTIONS.

(** The stage a progress record shows; [Idle] when no flag is up. *)
Inductive Stage := Idle | Reading | Detecting | Drafting | Done | Failed.

Definition stage_of (p : GenerationProgress) : Stage :=
  match error_ p with
  | Some _ => Failed
  | None =>
      if bool_decide (done_ p = Some true) then Done
      else if bool_decide (drafting p = Some true) then Drafting
      else if bool_decide (detecting p = Some true) then Detecting
      else if bool_decide (reading p = Some true) then Reading
      else Idle
  end.

(** The progress records a trace sets, in order. *)
Definition progress_of (e : AppEvent) : option GenerationProgress :=
  match e with
  | SetProgress p => Some p
  | _ => None
  end.

Definition progress_updates (t : Trace) : list GenerationProgress :=
  omap progress_of t.*1.

(** The calls of the two pipeline stages, their settlements and the
    requests sent to the model, in the order a trace has them. *)
Definition is_pipeline_event (e : AppEvent) : bool :=
  match e with
  | AnalyzeContextCalled _ | AnalyzeContextSettled _
  | GenerateBilingualReplyCalled _ _ _ _ _ _
  | GenerateBilingualReplySettled _
  | ServiceEvent (ApiCall _) => true
  | _ => false
  end.

Definition pipeline_events (t : Trace) : list AppEvent :=
  List.filter is_pipeline_event t.*1.

(** The model is contacted. *)
Definition is_api_call (e : AppEvent) : bool :=
  match e with
  | ServiceEvent (ApiCall _) => true
  | _ => false
  end.

(** No reply, no tone description and no error are on display. *)
Definition cleared (s : AppState) : Prop :=
  replySentences s = Some (JArr [])
  /\ toneDescription s = Some (JStr "")
  /\ error s = None.


End App.

(** ** A reference platform

    Executable stand-ins for the built-ins the program calls, used to run
    the model on concrete inputs.  The theorems below hold for any
    [JSON.parse], [JSON.stringify] and [trim]. *)

Module Reference.

Definition quote_char : ascii := ascii_of_nat 34.

(** JSON white space: tab, line feed, carriage return, space. *)
Definition is_json_ws (c : ascii) : bool :=
  let n := nat_of_ascii c in
  (n =? 9)%nat || (n =? 10)%nat || (n =? 13)%nat || (n =? 32)%nat.

Fixpoint skip_ws (s : string) : string :=
  match s with
  | String c s' => if is_json_ws c then skip_ws s' else s
  | EmptyString => s
  end.

Definition digit_of (c : ascii) : option Z :=
  let n := nat_of_ascii c in
  if (48 <=? n)%nat && (n <=? 57)%nat then Some (Z.of_nat (n - 48)) else None.

Definition hex_of (c : ascii) : option nat :=
  let n := nat_of_ascii c in
  if (48 <=? n)%nat && (n <=? 57)%nat then Some (n - 48)%nat
  else if (97 <=? n)%nat && (n <=? 102)%nat then Some (n - 87)%nat
  else if (65 <=? n)%nat && (n <=? 70)%nat then Some (n - 55)%nat
  else None.

(** A maximal run of digits: its value added to [acc], its length, the
    rest. *)
Fixpoint read_digits (acc : Z) (count : nat) (s : string) : Z * nat * string :=
  match s with
  | String c s' =>
      match digit_of c with
      | Some d => read_digits (acc * 10 + d)%Z (S count) s'
      | None => (acc, count, s)
      end
  | EmptyString => (acc, count, s)
  end.

Definition starts_with_zero (s : string) : bool :=
  match s with
  | String c _ => Ascii.eqb c "0"
  | EmptyString => false
  end.

Definition parse_exponent (s : string) : option (Z * string) :=
  match s with
  | String c r =>
      if Ascii.eqb c "e" || Ascii.eqb c "E" then
        let '(negative, r1) :=
          match r with
          | String sign r' =>
              if Ascii.eqb sign "-" then (true, r')
              else if Ascii.eqb sign "+" then (false, r')
              else (false, r)
          | EmptyString => (false, r)
          end in
        let '(x, n, r2) := read_digits 0 0 r1 in
        if (n =? 0)%nat then None
        else Some (if negative then (- x)%Z else x, r2)
      else Some (0%Z, s)
  | EmptyString => Some (0%Z, s)
  end.

(** [-? int frac? exp?] *)
Definition parse_number (s : string) : option (json * string) :=
  let '(negative, s1) :=
    match s with
    | String c r => if Ascii.eqb c "-" then (true, r) else (false, s)
    | EmptyString => (false, s)
    end in
  let '(i, n, s2) := read_digits 0 0 s1 in
  if (n =? 0)%nat || (starts_with_zero s1 && (1 <? n)%nat) then None
  else
    let fraction :=
      match s2 with
      | String c r =>
          if Ascii.eqb c "." then
            let '(m, k, r') := read_digits i 0 r in
            if (k =? 0)%nat then None else Some (m, (- Z.of_nat k)%Z, r')
          else Some (i, 0%Z, s2)
      | EmptyString => Some (i, 0%Z, s2)
      end in
    match fraction with
    | None => None
    | Some (m, e, s3) =>
        match parse_exponent s3 with
        | None => None
        | Some (x, s4) =>
            Some (JNum (if negative then (- m)%Z else m) (e + x)%Z, s4)
        end
    end.

(** The UTF-8 bytes of a code unit given by a [\uXXXX] escape (a
    surrogate is encoded on its own). *)
Definition utf8 (cp : nat) : string :=
  if (cp <? 128)%nat then String (ascii_of_nat cp) EmptyString
  else if (cp <? 2048)%nat then
    String (ascii_of_nat (192 + cp / 64))
      (String (ascii_of_nat (128 + cp mod 64)) EmptyString)
  else
    String (ascii_of_nat (224 + cp / 4096))
      (String (ascii_of_nat (128 + (cp / 64) mod 64))
         (String (ascii_of_nat (128 + cp mod 64)) EmptyString)).

Definition simple_escape (c : ascii) : option ascii :=
  if Ascii.eqb c quote_char then Some quote_char
  else if Ascii.eqb c "\" then Some "\"%char
  else if Ascii.eqb c "/" then Some "/"%char
  else if Ascii.eqb c "b" then Some (ascii_of_nat 8)
  else if Ascii.eqb c "f" then Some (ascii_of_nat 12)
  else if Ascii.eqb c "n" then Some (ascii_of_nat 10)
  else if Ascii.eqb c "r" then Some (ascii_of_nat 13)
  else if Ascii.eqb c "t" then Some (ascii_of_nat 9)
  else None.

Definition hex4 (a b c d : ascii) : option nat :=
  match hex_of a, hex_of b, hex_of c, hex_of d with
  | Some x, Some y, Some z, Some w =>
      Some (((x * 16 + y) * 16 + z) * 16 + w)%nat
  | _, _, _, _ => None
  end.

(** The characters of a string literal after its opening quote, up to the
    closing one. *)
Fixpoint parse_string_body (s : string) : option (string * string) :=
  match s with
  | EmptyString => None
  | String c r =>
      if Ascii.eqb c quote_char then Some (EmptyString, r)
      else if Ascii.eqb c "\" then
        match r with
        | EmptyString => None
        | String e r' =>
            if Ascii.eqb e "u" then
              match r' with
              | String h1 (String h2 (String h3 (String h4 r''))) =>
                  match hex4 h1 h2 h3 h4, parse_string_body r'' with
                  | Some cp, Some (body, rest) =>
                      Some (String.append (utf8 cp) body, rest)
                  | _, _ => None
                  end
              | _ => None
              end
            else
              match simple_escape e, parse_string_body r' with
              | Some x, Some (body, rest) => Some (String x body, rest)
              | _, _ => None
              end
        end
      else if (nat_of_ascii c <? 32)%nat then None
      else
        match parse_string_body r with
        | Some (body, rest) => Some (String c body, rest)
        | None => None
        end
  end.

Definition expect (word : string) (s : string) (j : json)
  : option (json * string) :=
  if String.prefix word s
  then Some (j, String.substring (String.length word)
                  (String.length s - String.length word) s)
  else None.

(** An object keeps, for a repeated key, its last value. *)
Definition object_of (members : list (string * json)) : json :=
  JObj (fold_left (fun acc kv => set_field (fst kv) (snd kv) acc) members []).

Fixpoint parse_value (fuel : nat) (s : string) : option (json * string) :=
  match fuel with
  | O => None
  | S fuel' =>
      match skip_ws s with
      | EmptyString => None
      | String c r =>
          if Ascii.eqb c "n" then expect "ull" r JNull
          else if Ascii.eqb c "t" then expect "rue" r (JBool true)
          else if Ascii.eqb c "f" then expect "alse" r (JBool false)
          else if Ascii.eqb c quote_char then
            match parse_string_body r with
            | Some (str, rest) => Some (JStr str, rest)
            | None => None
            end
          else if Ascii.eqb c "[" then
            match skip_ws r with
            | String c' r' =>
                if Ascii.eqb c' "]" then Some (JArr [], r')
                else match parse_elements fuel' r with
                     | Some (l, rest) => Some (JArr l, rest)
                     | None => None
                     end
            | EmptyString => None
            end
          else if Ascii.eqb c "{" then
            match skip_ws r with
            | String c' r' =>
                if Ascii.eqb c' "}" then Some (JObj [], r')
                else match parse_members fuel' r with
                     | Some (ms, rest) => Some (object_of ms, rest)
                     | None => None
                     end
            | EmptyString => None
            end
          else parse_number (String c r)
      end
  end
with parse_elements (fuel : nat) (s : string) : option (list json * string) :=
  match fuel with
  | O => None
  | S fuel' =>
      match parse_value fuel' s with
      | None => None
      | Some (v, r) =>
          match skip_ws r with
          | String c r' =>
              if Ascii.eqb c "," then
                match parse_elements fuel' r' with
                | Some (vs, rest) => Some (v :: vs, rest)
                | None => None
                end
              else if Ascii.eqb c "]" then Some ([v], r')
              else None
          | EmptyString => None
          end
      end
  end
with parse_members (fuel : nat) (s : string)
  : option (list (string * json) * string) :=
  match fuel with
  | O => None
  | S fuel' =>
      match skip_ws s with
      | String q r =>
          if Ascii.eqb q quote_char then
            match parse_string_body r with
            | None => None
            | Some (k, r1) =>
                match skip_ws r1 with
                | String colon r2 =>
                    if Ascii.eqb colon ":" then
                      match parse_value fuel' r2 with
                      | None => None
                      | Some (v, r3) =>
                          match skip_ws r3 with
                          | String c r4 =>
                              if Ascii.eqb c "," then
                                match parse_members fuel' r4 with
                                | Some (ms, rest) => Some ((k, v) :: ms, rest)
                                | None => None
                                end
                              else if Ascii.eqb c "}" then Some ([(k, v)], r4)
                              else None
                          | EmptyString => None
                          end
                      end
                    else None
                | EmptyString => None
                end
            end
          else None
      | EmptyString => None
      end
  end.

(** [JSON.parse]: one value, surrounded by white space only. *)
Definition JSON_parse (s : string) : option json :=
  match parse_value (2 * String.length s + 2) s with
  | Some (j, rest) =>
      if String.eqb (skip_ws rest) "" then Some j else None
  | None => None
  end.

Definition hex_digit (n : nat) : ascii :=
  nth n (list_ascii_of_string "0123456789abcdef") "0"%char.

Definition escape_char (c : ascii) : string :=
  let n := nat_of_ascii c in
  if Ascii.eqb c quote_char then String "\" (String quote_char EmptyString)
  else if Ascii.eqb c "\" then "\\"
  else if (n =? 8)%nat then "\b"
  else if (n =? 12)%nat then "\f"
  else if (n =? 10)%nat then "\n"
  else if (n =? 13)%nat then "\r"
  else if (n =? 9)%nat then "\t"
  else if (n <? 32)%nat then
    String.append "\u00"
      (String (hex_digit (n / 16)) (String (hex_digit (n mod 16)) EmptyString))
  else String c EmptyString.

Fixpoint escape (s : string) : string :=
  match s with
  | EmptyString => EmptyString
  | String c r => String.append (escape_char c) (escape r)
  end.

Definition quote (s : string) : string :=
  String quote_char (String.append (escape s) (String quote_char EmptyString)).

Definition string_of_Z (z : Z) : string := NilZero.string_of_int (Z.to_int z).

(** [JSON.stringify] of a parsed value.  A number with a nonzero exponent
    is written in exponent form. *)
Fixpoint JSON_stringify (j : json) : string :=
  match j with
  | JNull => "null"
  | JBool true => "true"
  | JBool false => "false"
  | JNum m e =>
      String.append (string_of_Z m)
        (if (e =? 0)%Z then "" else String.append "e" (string_of_Z e))
  | JStr s => quote s
  | JArr l =>
      String.append "[" (String.append
        (String.concat "," (map JSON_stringify l)) "]")
  | JObj fs =>
      String.append "{" (String.append
        (String.concat ","
           (map (fun kv =>
                   String.append (quote (fst kv))
                     (String.append ":" (JSON_stringify (snd kv)))) fs))
        "}")
  end.

(** The white space [trim] strips, among the ASCII characters. *)
Definition is_js_space (c : ascii) : bool :=
  let n := nat_of_ascii c in
  ((9 <=? n)%nat && (n <=? 13)%nat) || (n =? 32)%nat.

Fixpoint trim_start (s : string) : string :=
  match s with
  | String c s' => if is_js_space c then trim_start s' else s
  | EmptyString => s
  end.

Definition reverse (s : string) : string :=
  string_of_list_ascii (rev (list_ascii_of_string s)).

Definition trim (s : string) : string :=
  reverse (trim_start (reverse (trim_start s))).

(** A model that gives one outcome to the analysis request and one to the
    reply request. *)
Definition model (analysis reply : ApiOutcome)
    (req : GenerateContentParameters) : ApiOutcome :=
  match contents req with
  | AnalysisPrompt _ => analysis
  | ReplyPrompt _ _ _ _ _ _ _ => reply
  end.

(** [Math.floor(Math.random() * n)] for a generator that returns 0.5. *)
Definition random_index (n : nat) : nat := n / 2.

(** An empty, accessible local storage of five megabytes. *)
Definition empty_storage : App.Storage := App.mkStorage ∅ false 5242880%N.

(** JSON text written with single quotes in place of double quotes. *)
Fixpoint json_text (s : string) : string :=
  match s with
  | EmptyString => EmptyString
  | String c r =>
      String (if Ascii.eqb c "'" then quote_char else c) (json_text r)
  end.

End Reference.

(** ** Sample inputs *)

Definition good_analysis : ApiOutcome :=
  Fulfilled (Some (Reference.json_text
    "{'messageType':'Current student','sentiment':'Positive','detectedLanguage':'en'}")).

Definition good_reply : ApiOutcome :=
  Fulfilled (Some (Reference.json_text
    "{'sentences':[{'englishSentence':'Glad to hear it!','arabicSentence':'يسعدني ذلك'}],'toneDescription':'Warm'}")).

Definition first_render : App.AppState :=
  App.initial_state App.default_settings (JArr []).

Definition run_with (analysis reply : ApiOutcome) (message_arg : option string)
  : App.Trace * App.AppState * Completion unit :=
  App.handleGenerateReply (Reference.model analysis reply)
    Reference.JSON_parse Reference.trim Reference.random_index
    message_arg first_render.

Definition stages_of (r : App.Trace * App.AppState * Completion unit)
  : list App.Stage :=
  App.stage_of <$> App.progress_updates r.1.1.

(** ** Vocabulary of the properties *)

(** The parsed response has no [sentences] property, or an empty
    [sentences] array. *)
Definition sentences_missing_or_empty (parsedResponse : json) : Prop :=
  get_prop parsedResponse "sentences" = Normal undefined
  \/ get_prop parsedResponse "sentences" = Normal (Some (JArr [])).

(** The progress records of the stages. *)
Definition p_reading : GenerationProgress :=
  mkProgress (Some true) None None None None None.
Definition p_detecting : GenerationProgress :=
  mkProgress (Some false) (Some true) None None None None.
Definition p_drafting : GenerationProgress :=
  mkProgress (Some false) (Some false) (Some true) None None None.
Definition p_done : GenerationProgress :=
  mkProgress (Some false) (Some false) (Some false) None (Some true) None.
Definition p_error (m : string) : GenerationProgress :=
  mkProgress None None None None None (Some m).

(** A state in the error stage shows no reply. *)
Definition error_shows_no_reply (s : App.AppState) : Prop :=
  App.stage_of (App.progress s) = App.Failed ->
  App.replySentences s = Some (JArr []).

(** ** Further parts of constants.ts and App.tsx *)

Definition MESSAGE_TYPE_OPTIONS : list option_entry :=
  [ mkOption (MessageType_value NEW_STUDENT) "🟢 New student inquiry";
    mkOption (MessageType_value CURRENT_STUDENT) "🟠 Current student message";
    mkOption (MessageType_value ABSENT_STUDENT)
      "🔵 Absent student notification";
    mkOption (MessageType_value RESCHEDULE) "🟣 Reschedule request";
    mkOption (MessageType_value PAYMENT) "💰 Payment inquiry";
    mkOption (MessageType_value GENERAL) "❓ General question" ].

(** The body of the theme effect, on the class list of [document.body]:
    [if (settings.theme === 'dark') classList.add('dark') else
    classList.remove('dark')]. *)
Definition theme_effect (the_settings : json) (classList : gset string)
  : Completion (gset string) :=
  match get_prop the_settings "theme" with
  | Throw e => Throw e
  | Normal theme =>
      Normal (if App.is_dark theme then {[ "dark" ]} ∪ classList
              else classList ∖ {[ "dark" ]})
  end.

(** The requests a service trace sends to the model, in order. *)
Definition requests (t : list SvcEvent) : list GenerateContentParameters :=
  omap (fun e => match e with ApiCall r => Some r | _ => None end) t.

(** * Properties *)

(** ** The context analyzer *)

Section AnalyzerFacts.

Variable generateContent : GenerateContentParameters -> ApiOutcome.
Variable JSON_parse : string -> option json.
Variable trim : string -> string.

Let analyzeContext := geminiService.analyzeContext generateContent JSON_parse trim.
Let request := geminiService.analysis_request.
Let fallback := geminiService.fallback_context.
Let logged (e : JsError) := ConsoleError "Error analyzing context:" e.

(** The four ways a call of [analyzeContext] can go. *)
Lemma analyzeContext_rejected m e :
  generateContent (request m) = Rejected e ->
  analyzeContext m = ([ApiCall (request m); logged e], Normal fallback).
Proof.
  intros H. unfold analyzeContext, geminiService.analyzeContext,
    geminiService.await_generateContent, svc_try_catch, svc_bind.
  fold (request m). rewrite H. reflexivity.
Qed.

Lemma analyzeContext_no_text m :
  generateContent (request m) = Fulfilled None ->
  analyzeContext m =
    ([ApiCall (request m); logged (cannot_read_undefined "trim")],
     Normal fallback).
Proof.
  intros H. unfold analyzeContext, geminiService.analyzeContext,
    geminiService.await_generateContent, svc_try_catch, svc_bind.
  fold (request m). rewrite H. reflexivity.
Qed.

Lemma analyzeContext_malformed m text :
  generateContent (request m) = Fulfilled (Some text) ->
  JSON_parse (trim text) = None ->
  analyzeContext m =
    ([ApiCall (request m); logged syntax_error],
     Normal fallback).
Proof.
  intros H P. unfold analyzeContext, geminiService.analyzeContext,
    geminiService.await_generateContent, svc_try_catch, svc_bind.
  fold (request m). rewrite H. simpl. unfold geminiService.parse.
  rewrite P. reflexivity.
Qed.

Lemma analyzeContext_parsed m text j :
  generateContent (request m) = Fulfilled (Some text) ->
  JSON_parse (trim text) = Some j ->
  analyzeContext m = ([ApiCall (request m)], Normal j).
Proof.
  intros H P. unfold analyzeContext, geminiService.analyzeContext,
    geminiService.await_generateContent, svc_try_catch, svc_bind.
  fold (request m). rewrite H. simpl. unfold geminiService.parse.
  rewrite P. reflexivity.
Qed.

(** [analyzeContext] settles normally, on the fallback or on what
    [JSON.parse] gave. *)
Lemma analyzeContext_settles m :
  exists t v, analyzeContext m = (t, Normal v)
    /\ (v = fallback
        \/ exists text, generateContent (request m) = Fulfilled (Some text)
                        /\ JSON_parse (trim text) = Some v).
Proof.
  destruct (generateContent (request m)) as [e | [text |]] eqn:H.
  - rewrite (analyzeContext_rejected m e H). eauto.
  - destruct (JSON_parse (trim text)) as [j |] eqn:P.
    + rewrite (analyzeContext_parsed m text j H P).
      exists [ApiCall (request m)], j. split; [reflexivity |].
      right. exists text. split; [reflexivity | exact P].
    + rewrite (analyzeContext_malformed m text H P). eauto.
  - rewrite (analyzeContext_no_text m H). eauto.
Qed.

End AnalyzerFacts.

Lemma fallback_context_conforms :
  conforms geminiService.contextAnalysisSchema geminiService.fallback_context
  = true.
Proof. reflexivity. Qed.

(** A model that answers every request with the same text. *)
Example analyzeContext_on_empty_object :
  geminiService.analyzeContext (fun _ => Fulfilled (Some "{}"))
    Reference.JSON_parse Reference.trim "Thank you, teacher!"
  = ([ApiCall (geminiService.analysis_request "Thank you, teacher!")],
     Normal (JObj [])).
Proof. reflexivity. Qed.

Example analyzeContext_on_unknown_type :
  geminiService.analyzeContext
    (fun _ => Fulfilled (Some (Reference.json_text
       "{'messageType':'Spam','sentiment':'Neutral','detectedLanguage':'en'}")))
    Reference.JSON_parse Reference.trim "Can we move the class?"
  = ([ApiCall (geminiService.analysis_request "Can we move the class?")],
     Normal (JObj [ ("messageType", JStr "Spam");
                    ("sentiment", JStr "Neutral");
                    ("detectedLanguage", JStr "en") ])).
Proof. vm_compute. reflexivity. Qed.

(** C1, as stated, fails: the analyzer hands back whatever [JSON.parse]
    produced.  When the model answers [{}] to the non-empty message
    "Thank you, teacher!", the call settles on the empty object, which has
    none of the three fields of the schema. *)
Lemma analyzeContext_result_may_violate_schema :
  "Thank you, teacher!" <> ""
  /\ exists t v,
       geminiService.analyzeContext (fun _ => Fulfilled (Some "{}"))
         Reference.JSON_parse Reference.trim "Thank you, teacher!"
       = (t, Normal v)
       /\ conforms geminiService.contextAnalysisSchema v = false.
Proof.
  split; [discriminate |].
  eexists _, _. split; [exact analyzeContext_on_empty_object | reflexivity].
Qed.

(** C1, amended: for every message, [analyzeContext] settles normally
    (it never raises to its caller), and its result conforms to the
    three-field schema exactly when the response of the model, if it has
    text that parses, parses to a conforming value; the fallback it
    substitutes on a failure conforms. *)
Theorem analyzeContext_never_raises :
  forall generateContent JSON_parse trim (studentMessage : string),
    exists t v,
      geminiService.analyzeContext generateContent JSON_parse trim
        studentMessage = (t, Normal v)
      /\ (conforms geminiService.contextAnalysisSchema v = true <->
          forall text j,
            generateContent (geminiService.analysis_request studentMessage)
              = Fulfilled (Some text) ->
            JSON_parse (trim text) = Some j ->
            conforms geminiService.contextAnalysisSchema j = true).
Proof.
  intros gc parse trim m.
  destruct (analyzeContext_settles gc parse trim m)
    as (t & v & E & [-> | (text & H & P)]).
  - exists t, geminiService.fallback_context. split; [exact E |].
    split; [| intros _; exact fallback_context_conforms].
    intros _ text j H P.
    rewrite (analyzeContext_parsed gc parse trim m text j H P) in E.
    injection E as _ ->. exact fallback_context_conforms.
  - exists t, v. split; [exact E |]. split.
    + intros C text' j H' P'. rewrite H in H'. injection H' as <-.
      rewrite P in P'. injection P' as <-. exact C.
    + intros A. exact (A text v H P).
Qed.

(** C4, as stated, fails for the schema violation: a response that parses
    is returned as it is.  A model that answers with the message type
    "Spam", which is outside the enumeration, gets that answer back, not
    the default. *)
Lemma analyzeContext_keeps_schema_violation :
  exists text j,
    text = Reference.json_text
      "{'messageType':'Spam','sentiment':'Neutral','detectedLanguage':'en'}"
    /\ Reference.JSON_parse (Reference.trim text) = Some j
    /\ conforms geminiService.contextAnalysisSchema j = false
    /\ snd (geminiService.analyzeContext (fun _ => Fulfilled (Some text))
              Reference.JSON_parse Reference.trim "Can we move the class?")
       = Normal j
    /\ j <> geminiService.fallback_context.
Proof.
  eexists _, _. split; [reflexivity |]. split; [vm_compute; reflexivity |].
  split; [reflexivity |]. split.
  - rewrite analyzeContext_on_unknown_type. reflexivity.
  - discriminate.
Qed.

(** C4, amended: when the model call rejects, when the response has no
    text, or when the text is not JSON, [analyzeContext] logs the cause and
    returns exactly the fixed default; a response that parses is returned
    as parsed, whether or not it conforms to the schema. *)
Theorem analyzeContext_fallback_on_failure :
  forall generateContent JSON_parse trim (studentMessage : string),
    let request := geminiService.analysis_request studentMessage in
    let result :=
      geminiService.analyzeContext generateContent JSON_parse trim
        studentMessage in
    let logged := ConsoleError "Error analyzing context:" in
    (forall e, generateContent request = Rejected e ->
       result = ([ApiCall request; logged e],
                 Normal geminiService.fallback_context))
    /\ (generateContent request = Fulfilled None ->
        result = ([ApiCall request; logged (cannot_read_undefined "trim")],
                  Normal geminiService.fallback_context))
    /\ (forall text, generateContent request = Fulfilled (Some text) ->
        JSON_parse (trim text) = None ->
        result = ([ApiCall request; logged syntax_error],
                  Normal geminiService.fallback_context))
    /\ (forall text j, generateContent request = Fulfilled (Some text) ->
        JSON_parse (trim text) = Some j ->
        result = ([ApiCall request], Normal j)).
Proof.
  intros gc parse trim m request result logged. repeat split.
  - intros e H. exact (analyzeContext_rejected gc parse trim m e H).
  - intros H. exact (analyzeContext_no_text gc parse trim m H).
  - intros text H P. exact (analyzeContext_malformed gc parse trim m text H P).
  - intros text j H P. exact (analyzeContext_parsed gc parse trim m text j H P).
Qed.

(** ** The reply generator *)

Section GeneratorFacts.

Variable generateContent : GenerateContentParameters -> ApiOutcome.
Variable JSON_parse : string -> option json.
Variable trim : string -> string.

Let attempt := geminiService.reply_attempt generateContent JSON_parse trim.
Let generateBilingualReply :=
  geminiService.generateBilingualReply generateContent JSON_parse trim.
Let logged (e : JsError) := ConsoleError "Error generating bilingual reply:" e.

(** What the [catch] clause makes of the [try] block. *)
Lemma generateBilingualReply_caught m c tone pf tn st t cause :
  attempt m c tone pf tn st = (t, Throw cause) ->
  generateBilingualReply m c tone pf tn st
  = (t ++ [logged cause], Throw geminiService.generic_reply_error).
Proof.
  intros H. unfold generateBilingualReply,
    geminiService.generateBilingualReply, svc_try_catch.
  fold (attempt m c tone pf tn st). rewrite H. reflexivity.
Qed.

Lemma generateBilingualReply_passed m c tone pf tn st t r :
  attempt m c tone pf tn st = (t, Normal r) ->
  generateBilingualReply m c tone pf tn st = (t, Normal r).
Proof.
  intros H. unfold generateBilingualReply,
    geminiService.generateBilingualReply, svc_try_catch.
  fold (attempt m c tone pf tn st). rewrite H. reflexivity.
Qed.

(** The failures of the [try] block, by cause. *)
Lemma attempt_no_prompt m c tone pf tn st e :
  geminiService.reply_prompt m c tone pf tn st = Throw e ->
  attempt m c tone pf tn st = ([], Throw e).
Proof.
  intros H. unfold attempt, geminiService.reply_attempt, svc_bind, svc_lift.
  rewrite H. reflexivity.
Qed.

Lemma attempt_rejected m c tone pf tn st p e :
  geminiService.reply_prompt m c tone pf tn st = Normal p ->
  generateContent (geminiService.reply_request p) = Rejected e ->
  attempt m c tone pf tn st
  = ([ApiCall (geminiService.reply_request p)], Throw e).
Proof.
  intros H G. unfold attempt, geminiService.reply_attempt, svc_bind,
    svc_lift, geminiService.await_generateContent.
  rewrite H, G. reflexivity.
Qed.

Lemma attempt_no_text m c tone pf tn st p :
  geminiService.reply_prompt m c tone pf tn st = Normal p ->
  generateContent (geminiService.reply_request p) = Fulfilled None ->
  attempt m c tone pf tn st
  = ([ApiCall (geminiService.reply_request p)],
     Throw (cannot_read_undefined "trim")).
Proof.
  intros H G. unfold attempt, geminiService.reply_attempt, svc_bind,
    svc_lift, geminiService.await_generateContent.
  rewrite H, G. reflexivity.
Qed.

Lemma attempt_malformed m c tone pf tn st p text :
  geminiService.reply_prompt m c tone pf tn st = Normal p ->
  generateContent (geminiService.reply_request p) = Fulfilled (Some text) ->
  JSON_parse (trim text) = None ->
  attempt m c tone pf tn st
  = ([ApiCall (geminiService.reply_request p)],
     Throw syntax_error).
Proof.
  intros H G P. unfold attempt, geminiService.reply_attempt, svc_bind,
    svc_lift, geminiService.await_generateContent.
  rewrite H, G. simpl. unfold geminiService.parse. rewrite P. reflexivity.
Qed.

Lemma attempt_no_sentences m c tone pf tn st p text parsed :
  geminiService.reply_prompt m c tone pf tn st = Normal p ->
  generateContent (geminiService.reply_request p) = Fulfilled (Some text) ->
  JSON_parse (trim text) = Some parsed ->
  sentences_missing_or_empty parsed ->
  attempt m c tone pf tn st
  = ([ApiCall (geminiService.reply_request p)],
     Throw geminiService.empty_reply_error).
Proof.
  intros H G P S. unfold attempt, geminiService.reply_attempt, svc_bind,
    svc_lift, geminiService.await_generateContent.
  rewrite H, G. simpl. unfold geminiService.parse. rewrite P. simpl.
  destruct S as [S | S]; rewrite S; reflexivity.
Qed.

End GeneratorFacts.

(** C2: when the parsed response of the model has no [sentences], or an
    empty [sentences] array, [generateBilingualReply] raises (the generic
    error), having logged "AI returned an empty reply."; it returns no
    result. *)
Theorem generateBilingualReply_raises_on_no_sentences :
  forall generateContent JSON_parse trim (studentMessage : string)
         (context : json) (tone platform teacherName student : value)
         (prompt : Prompt) (text : string) (parsedResponse : json),
    geminiService.reply_prompt studentMessage context tone platform
      teacherName student = Normal prompt ->
    generateContent (geminiService.reply_request prompt)
      = Fulfilled (Some text) ->
    JSON_parse (trim text) = Some parsedResponse ->
    sentences_missing_or_empty parsedResponse ->
    geminiService.generateBilingualReply generateContent JSON_parse trim
      studentMessage context tone platform teacherName student
    = ([ApiCall (geminiService.reply_request prompt);
        ConsoleError "Error generating bilingual reply:"
          geminiService.empty_reply_error],
       Throw geminiService.generic_reply_error).
Proof.
  intros gc parse trim m c tone pf tn st p text parsed H G P S.
  exact (generateBilingualReply_caught gc parse trim m c tone pf tn st _ _
           (attempt_no_sentences gc parse trim m c tone pf tn st p text
              parsed H G P S)).
Qed.

(** A model that answers with an empty [sentences] array. *)
Lemma generateBilingualReply_raises_on_no_sentences_witness :
  let text := Reference.json_text "{'sentences':[],'toneDescription':'ok'}" in
  let parsed := JObj [("sentences", JArr []); ("toneDescription", JStr "ok")] in
  Reference.JSON_parse (Reference.trim text) = Some parsed
  /\ sentences_missing_or_empty parsed
  /\ snd (geminiService.generateBilingualReply
            (fun _ => Fulfilled (Some text)) Reference.JSON_parse
            Reference.trim "I enjoy the lessons"
            geminiService.fallback_context (Some (JStr "Friendly"))
            (Some (JStr "WhatsApp")) (Some (JStr "Teacher")) undefined)
     = Throw geminiService.generic_reply_error.
Proof.
  split; [reflexivity |]. split; [right; reflexivity |].
  rewrite (generateBilingualReply_raises_on_no_sentences
             (fun _ => Fulfilled (Some (Reference.json_text
                "{'sentences':[],'toneDescription':'ok'}")))
             Reference.JSON_parse Reference.trim "I enjoy the lessons"
             geminiService.fallback_context (Some (JStr "Friendly"))
             (Some (JStr "WhatsApp")) (Some (JStr "Teacher")) undefined
             _ _ _ eq_refl eq_refl eq_refl (or_intror eq_refl)).
  reflexivity.
Defined.

(** C3: an error raised by [generateBilingualReply] is always the one
    fixed generic error, whatever made the [try] block fail; the cause is
    logged and is not part of what is raised.  A rejected model call, a
    response that is not JSON and an empty sentence array each end so. *)
Theorem generateBilingualReply_failures_are_generic :
  forall generateContent JSON_parse trim (studentMessage : string)
         (context : json) (tone platform teacherName student : value),
    let result :=
      geminiService.generateBilingualReply generateContent JSON_parse trim
        studentMessage context tone platform teacherName student in
    let attempt :=
      geminiService.reply_attempt generateContent JSON_parse trim
        studentMessage context tone platform teacherName student in
    let logged := ConsoleError "Error generating bilingual reply:" in
    let raised t cause :=
      result = (t ++ [logged cause], Throw geminiService.generic_reply_error) in
    (forall e, snd result = Throw e ->
       e = geminiService.generic_reply_error
       /\ exists cause, snd attempt = Throw cause
                        /\ fst result = fst attempt ++ [logged cause])
    /\ (forall prompt,
          geminiService.reply_prompt studentMessage context tone platform
            teacherName student = Normal prompt ->
          let request := geminiService.reply_request prompt in
          (forall e, generateContent request = Rejected e ->
             raised [ApiCall request] e)
          /\ (forall text, generateContent request = Fulfilled (Some text) ->
                JSON_parse (trim text) = None ->
                raised [ApiCall request] syntax_error)
          /\ (forall text parsedResponse,
                generateContent request = Fulfilled (Some text) ->
                JSON_parse (trim text) = Some parsedResponse ->
                sentences_missing_or_empty parsedResponse ->
                raised [ApiCall request] geminiService.empty_reply_error)).
Proof.
  intros gc parse trim m c tone pf tn st result attempt logged raised.
  split.
  - intros e E. subst result.
    destruct attempt as [t [r | cause]] eqn:A; subst attempt.
    + rewrite (generateBilingualReply_passed gc parse trim _ _ _ _ _ _ _ _ A)
        in E. discriminate E.
    + rewrite (generateBilingualReply_caught gc parse trim _ _ _ _ _ _ _ _ A)
        in *. injection E as <-. split; [reflexivity |].
      exists cause. split; reflexivity.
  - intros p H request. subst raised result. repeat split.
    + intros e G. apply generateBilingualReply_caught.
      exact (attempt_rejected gc parse trim _ _ _ _ _ _ p e H G).
    + intros text G P. apply generateBilingualReply_caught.
      exact (attempt_malformed gc parse trim _ _ _ _ _ _ p text H G P).
    + intros text parsed G P S. apply generateBilingualReply_caught.
      exact (attempt_no_sentences gc parse trim _ _ _ _ _ _ p text parsed
               H G P S).
Qed.

(** ** The two-stage pipeline of [handleGenerateReply] *)

Section PipelineShapes.

Variable generateContent : GenerateContentParameters -> ApiOutcome.
Variable JSON_parse : string -> option json.
Variable trim : string -> string.

(** The events of a call of [analyzeContext]: the request, then at most
    one logged error. *)
Lemma analyzeContext_shape m :
  exists c log,
    geminiService.analyzeContext generateContent JSON_parse trim m
    = (ApiCall (geminiService.analysis_request m) :: log, Normal c)
    /\ (log = []
        \/ exists e, log = [ConsoleError "Error analyzing context:" e]).
Proof.
  destruct (generateContent (geminiService.analysis_request m))
    as [e | [text |]] eqn:H.
  - rewrite (analyzeContext_rejected _ JSON_parse trim m e H). eauto 6.
  - destruct (JSON_parse (trim text)) as [j |] eqn:P.
    + rewrite (analyzeContext_parsed _ _ _ m text j H P). eauto 6.
    + rewrite (analyzeContext_malformed _ _ _ m text H P). eauto 6.
  - rewrite (analyzeContext_no_text _ JSON_parse trim m H). eauto 6.
Qed.

Lemma get_prop_not_null c k v k' :
  get_prop c k = Normal v -> exists v', get_prop c k' = Normal v'.
Proof. destruct c; simpl; try discriminate; eauto. Qed.

(** Once the prompt is built, the [try] block sends exactly one request. *)
Lemma reply_attempt_trace m c tone pf tn st p :
  geminiService.reply_prompt m c tone pf tn st = Normal p ->
  exists r,
    geminiService.reply_attempt generateContent JSON_parse trim
      m c tone pf tn st
    = ([ApiCall (geminiService.reply_request p)], r).
Proof.
  intros H. unfold geminiService.reply_attempt, svc_bind, svc_lift,
    geminiService.await_generateContent.
  rewrite H.
  destruct (generateContent (geminiService.reply_request p))
    as [e | [text |]]; simpl; eauto.
  unfold geminiService.parse.
  destruct (JSON_parse (trim text)) as [j |]; simpl; eauto.
  destruct (get_prop j "sentences") as [v | e]; simpl; eauto.
  destruct (geminiService.no_sentences v) as [[] | e]; simpl; eauto.
  destruct (get_prop j "toneDescription") as [w | e]; simpl; eauto.
Qed.

(** The events of a call of [generateBilingualReply]: when the prompt
    cannot be built, the logged cause and no request; otherwise the one
    request, followed by the logged cause when the call fails. *)
Lemma generateBilingualReply_shape m c tone pf tn st :
  (exists cause,
     geminiService.reply_prompt m c tone pf tn st = Throw cause
     /\ geminiService.generateBilingualReply generateContent JSON_parse
          trim m c tone pf tn st
        = ([ConsoleError "Error generating bilingual reply:" cause],
           Throw geminiService.generic_reply_error))
  \/ (exists p,
        geminiService.reply_prompt m c tone pf tn st = Normal p
        /\ ((exists reply,
               geminiService.generateBilingualReply generateContent JSON_parse
                 trim m c tone pf tn st
               = ([ApiCall (geminiService.reply_request p)], Normal reply))
            \/ (exists cause,
               geminiService.generateBilingualReply generateContent JSON_parse
                 trim m c tone pf tn st
               = ([ApiCall (geminiService.reply_request p);
                   ConsoleError "Error generating bilingual reply:" cause],
                  Throw geminiService.generic_reply_error)))).
Proof.
  destruct (geminiService.reply_prompt m c tone pf tn st) as [p | cause] eqn:P.
  - right. exists p. split; [reflexivity |].
    destruct (reply_attempt_trace m c tone pf tn st _ P) as [[reply | cause] A].
    + left. exists reply.
      exact (generateBilingualReply_passed _ _ _ _ _ _ _ _ _ _ _ A).
    + right. exists cause.
      exact (generateBilingualReply_caught _ _ _ _ _ _ _ _ _ _ _ A).
  - left. exists cause. split; [reflexivity |].
    exact (generateBilingualReply_caught _ _ _ _ _ _ _ _ _ _ _
             (attempt_no_prompt _ _ _ _ _ _ _ _ _ _ P)).
Qed.

End PipelineShapes.

(** The ways a call of [handleGenerateReply] can go: a blank message; an
    analysis whose result is [null]; a failure while the student or the
    settings are read; a reply generation that fails before its request,
    one that fails after it, and one that succeeds.  Each leaves a goal
    about a trace and a state that compute, with what was read from the
    closure among the hypotheses. *)
Ltac handleGenerateReply_cases :=
  unfold App.handleGenerateReply;
  let B := fresh "B" in
  destruct (String.eqb _ "") eqn:B;
  [ | cbv [App.app_bind App.app_finally App.app_try_catch App.setIsLoading
           App.setError App.setReplySentences App.setToneDescription
           App.setProgress App.modify App.await_analyzeContext
           App.await_generateBilingualReply App.setDetectedContext
           App.app_lift App.setMessageType App.setCurrentTip];
    let c := fresh "c" in
    let E := fresh "E" in
    match goal with
    | |- context [geminiService.analyzeContext ?g ?p ?t ?x] =>
        destruct (analyzeContext_shape g p t x)
          as (c & ? & E & [-> | [? ->]]);
        rewrite E
    end;
    (let mt := fresh "mt" in
     destruct (get_prop c "messageType") as [mt | ?] eqn:Hmt;
     [ destruct (App.students_find _ _) as [? | ?] eqn:Hst;
       [ destruct (get_prop _ "platform") as [? | ?] eqn:Hpf;
         [ destruct (get_prop _ "teacherName") as [? | ?] eqn:Htn;
           [ match goal with
             | |- context [geminiService.generateBilingualReply ?g ?p ?t
                             ?x ?c ?tone ?pf ?tn ?st] =>
                 let G := fresh "G" in
                 destruct (generateBilingualReply_shape g p t x c tone pf tn
                             st)
                   as [(? & Hprompt & G) | (? & Hprompt & [[? G] | [? G]])];
                 rewrite G
             end
           | ]
         | ]
       | ]
     | ])
  ].

Section PipelineFacts.

Variable generateContent : GenerateContentParameters -> ApiOutcome.
Variable JSON_parse : string -> option json.
Variable trim : string -> string.
Variable random_index : nat -> nat.

Let handleGenerateReply :=
  App.handleGenerateReply generateContent JSON_parse trim random_index.
Let analyzeContext :=
  geminiService.analyzeContext generateContent JSON_parse trim.
Let generateBilingualReply :=
  geminiService.generateBilingualReply generateContent JSON_parse trim.

(** The progress records of an invocation, and the one it ends on. *)
Lemma progress_updates_cases message_arg s0 :
  let result := handleGenerateReply message_arg s0 in
  let updates := App.progress_updates result.1.1 in
  let final := App.progress result.1.2 in
  (trim (App.finalMessage_of message_arg s0) = ""
   /\ updates = [] /\ final = App.progress s0)
  \/ (updates = [p_reading; p_detecting; p_drafting; p_done]
      /\ final = p_done)
  \/ (exists m, updates = [p_reading; p_detecting; p_error m]
                /\ final = p_error m)
  \/ (exists m, updates = [p_reading; p_detecting; p_drafting; p_error m]
                /\ final = p_error m).
Proof.
  intros result updates final; subst result updates final.
  unfold handleGenerateReply.
  handleGenerateReply_cases; [apply String.eqb_eq in B | ..];
    vm_compute; eauto 8.
Qed.

(** The stages an invocation goes through, by what happens in it. *)
Lemma stages_by_outcome message_arg s0 :
  let m := App.finalMessage_of message_arg s0 in
  let stages :=
    App.stage_of
      <$> App.progress_updates (handleGenerateReply message_arg s0).1.1 in
  let tone := Some (JStr (App.replyTone s0)) in
  trim m <> "" ->
  exists t c,
    analyzeContext m = (t, Normal c)
    /\ (forall e, get_prop c "messageType" = Throw e ->
          stages = [App.Reading; App.Detecting; App.Failed])
    /\ (forall mt e,
          get_prop c "messageType" = Normal mt ->
          App.students_find (App.students s0) (App.selectedStudentId s0)
            = Throw e
          \/ get_prop (App.settings s0) "platform" = Throw e
          \/ get_prop (App.settings s0) "teacherName" = Throw e ->
          stages = [App.Reading; App.Detecting; App.Drafting; App.Failed])
    /\ (forall mt st pf tn,
          get_prop c "messageType" = Normal mt ->
          App.students_find (App.students s0) (App.selectedStudentId s0)
            = Normal st ->
          get_prop (App.settings s0) "platform" = Normal pf ->
          get_prop (App.settings s0) "teacherName" = Normal tn ->
          stages = [ App.Reading; App.Detecting; App.Drafting;
                     match (generateBilingualReply m c tone pf tn st).2 with
                     | Normal _ => App.Done
                     | Throw _ => App.Failed
                     end ]).
Proof.
  intros m stages tone NB.
  subst m stages tone analyzeContext generateBilingualReply.
  unfold handleGenerateReply.
  handleGenerateReply_cases; [apply String.eqb_eq in B; contradiction | ..].
  all: eexists _, c; split; [reflexivity |];
    rewrite ?Hmt, ?Hst, ?Hpf, ?Htn; repeat split.
  all: try (intros; discriminate).
  all: try (intros; vm_compute; reflexivity).
  all: try (intros ? ? _ [D | [D | D]]; discriminate D).
  all: intros ? ? ? ? _ S P T; simplify_eq; rewrite G; vm_compute;
    reflexivity.
Qed.

(** C6: within one invocation of [handleGenerateReply] the progress state
    moves from where it was (idle, for the first invocation of a session)
    to reading, detecting, drafting and done, in this order.  An
    invocation on a non-blank message always reaches detecting; it reaches
    drafting exactly when [messageType] can be read from the analysis
    result, and done exactly when, further, the student and the settings
    can be read and [generateBilingualReply] settles on a reply.  It ends
    in the error stage otherwise: entered from detecting when
    [messageType] cannot be read, from drafting in the other cases, and
    from no other stage.  An invocation on a blank message leaves the
    progress state alone. *)
Theorem handleGenerateReply_progress_order message_arg s0 :
  let m := App.finalMessage_of message_arg s0 in
  let result := handleGenerateReply message_arg s0 in
  let stages := App.stage_of <$> App.progress_updates result.1.1 in
  let path := App.stage_of (App.progress s0) :: stages in
  let tone := Some (JStr (App.replyTone s0)) in
  (forall stored_settings stored_students,
     App.stage_of
       (App.progress (App.initial_state stored_settings stored_students))
     = App.Idle)
  /\ (trim m = "" -> stages = [])
  /\ (trim m <> "" ->
      exists t c,
        analyzeContext m = (t, Normal c)
        /\ (forall e, get_prop c "messageType" = Throw e ->
              stages = [App.Reading; App.Detecting; App.Failed])
        /\ (forall mt e,
              get_prop c "messageType" = Normal mt ->
              App.students_find (App.students s0) (App.selectedStudentId s0)
                = Throw e
              \/ get_prop (App.settings s0) "platform" = Throw e
              \/ get_prop (App.settings s0) "teacherName" = Throw e ->
              stages = [App.Reading; App.Detecting; App.Drafting; App.Failed])
        /\ (forall mt st pf tn,
              get_prop c "messageType" = Normal mt ->
              App.students_find (App.students s0) (App.selectedStudentId s0)
                = Normal st ->
              get_prop (App.settings s0) "platform" = Normal pf ->
              get_prop (App.settings s0) "teacherName" = Normal tn ->
              stages
              = [ App.Reading; App.Detecting; App.Drafting;
                  match (generateBilingualReply m c tone pf tn st).2 with
                  | Normal _ => App.Done
                  | Throw _ => App.Failed
                  end ]))
  /\ (forall i, path !! S i = Some App.Failed ->
         path !! i = Some App.Detecting \/ path !! i = Some App.Drafting)
  /\ last path = Some (App.stage_of (App.progress result.1.2)).
Proof.
  intros m result stages path tone; subst m result stages path tone.
  split; [reflexivity |].
  split.
  { intros Bl.
    destruct (progress_updates_cases message_arg s0)
      as [(_ & -> & _) | [[U _] | [(x & U & _) | (x & U & _)]]];
      [reflexivity | exfalso ..].
    all: revert U; unfold handleGenerateReply, App.handleGenerateReply;
      apply String.eqb_eq in Bl; rewrite Bl; discriminate. }
  split; [exact (stages_by_outcome message_arg s0) |].
  destruct (progress_updates_cases message_arg s0)
    as [(B & -> & ->) | [[-> ->] | [(x & -> & ->) | (x & -> & ->)]]].
  - split; [| reflexivity].
    intros [| i]; discriminate.
  - split; [| reflexivity].
    intros [| [| [| [| i]]]]; discriminate.
  - split; [| reflexivity].
    intros [| [| [| i]]]; try discriminate. intros _. left. reflexivity.
  - split; [| reflexivity].
    intros [| [| [| [| i]]]]; try discriminate. intros _. right. reflexivity.
Qed.

(** C5: in an invocation of [handleGenerateReply] the two stages run one
    after the other.  On a non-blank message the calls, settlements and
    model requests are, in order: the call of [analyzeContext], its
    request, its settlement on a context [c]; then, exactly when
    [c.messageType], the selected student and the settings can be read,
    the call of [generateBilingualReply] with this same [c] as its context
    argument, its request (none when the prompt cannot be built) and its
    settlement.  So [generateBilingualReply] is called only after
    [analyzeContext] has resolved, with what it resolved to.  A blank
    message calls neither stage. *)
Theorem handleGenerateReply_stages_sequential message_arg s0 :
  let m := App.finalMessage_of message_arg s0 in
  let calls := App.pipeline_events (handleGenerateReply message_arg s0).1.1 in
  let tone := Some (JStr (App.replyTone s0)) in
  let stage_one c :=
    [ App.AnalyzeContextCalled m;
      App.ServiceEvent (ApiCall (geminiService.analysis_request m));
      App.AnalyzeContextSettled (Normal c) ] in
  (trim m = "" -> calls = [])
  /\ (trim m <> "" ->
      exists t c,
        analyzeContext m = (t, Normal c)
        /\ (forall e,
              get_prop c "messageType" = Throw e
              \/ App.students_find (App.students s0)
                   (App.selectedStudentId s0) = Throw e
              \/ get_prop (App.settings s0) "platform" = Throw e
              \/ get_prop (App.settings s0) "teacherName" = Throw e ->
              calls = stage_one c)
        /\ (forall mt st pf tn,
              get_prop c "messageType" = Normal mt ->
              App.students_find (App.students s0) (App.selectedStudentId s0)
                = Normal st ->
              get_prop (App.settings s0) "platform" = Normal pf ->
              get_prop (App.settings s0) "teacherName" = Normal tn ->
              let called :=
                App.GenerateBilingualReplyCalled m c tone pf tn st in
              let settled :=
                App.GenerateBilingualReplySettled
                  (generateBilingualReply m c tone pf tn st).2 in
              (forall p,
                 geminiService.reply_prompt m c tone pf tn st = Normal p ->
                 calls = stage_one c
                         ++ [ called;
                              App.ServiceEvent
                                (ApiCall (geminiService.reply_request p));
                              settled ])
              /\ (forall e,
                    geminiService.reply_prompt m c tone pf tn st = Throw e ->
                    calls = stage_one c ++ [called; settled])))
  /\ (forall i m' c tone' pf tn st,
        calls !! i
          = Some (App.GenerateBilingualReplyCalled m' c tone' pf tn st) ->
        exists j, j < i
                  /\ calls !! j = Some (App.AnalyzeContextSettled (Normal c))).
Proof.
  intros m calls tone stage_one.
  subst m calls tone stage_one analyzeContext generateBilingualReply.
  unfold handleGenerateReply. handleGenerateReply_cases.
  { apply String.eqb_eq in B. split; [reflexivity |].
    split; [intros NB; contradiction |].
    intros [| i]; discriminate. }
  all: apply String.eqb_neq in B.
  all: (split; [intros Bl; contradiction |]).
  all: split;
    [ intros _; eexists _, c; split; [reflexivity |];
      rewrite ?Hmt, ?Hst, ?Hpf, ?Htn; split;
      [ intros e' D | intros mt' st' pf' tn' M S P T; simplify_eq ]
    | intros i m' c' tone' pf' tn' st'; cbn ].
  all: try (cbn; reflexivity).
  all: try (destruct D as [D | [D | [D | D]]]; discriminate D).
  all: try (rewrite G; cbn; split; intros ? Q; rewrite Hprompt in Q;
            simplify_eq; reflexivity).
  all: try (destruct i as [| [| [| i]]]; discriminate).
  all: try (destruct i as [| [| [| [| [| i]]]]]; try discriminate;
            intros [= _ <- _ _ _ _]; exists 2; split; [lia | reflexivity]).
  all: destruct i as [| [| [| [| [| [| i]]]]]]; try discriminate;
    intros [= _ <- _ _ _ _]; exists 2; split; [lia | reflexivity].
Qed.

(** The state an invocation ends in. *)
Lemma final_state_cases message_arg s0 :
  let result := handleGenerateReply message_arg s0 in
  let s' := result.1.2 in
  (trim (App.finalMessage_of message_arg s0) = ""
   /\ s' = App.with_error (Some "Please enter a student message.") s0)
  \/ (exists m,
        App.progress s' = p_error m
        /\ App.error s' = Some (App.or_string m "An unexpected error occurred.")
        /\ App.replySentences s' = Some (JArr [])
        /\ App.toneDescription s' = Some (JStr "")
        /\ App.isLoading s' = false)
  \/ (exists reply,
        App.GenerateBilingualReplySettled (Normal reply)
          ∈ App.pipeline_events result.1.1
        /\ App.progress s' = p_done
        /\ App.error s' = None
        /\ App.replySentences s' = geminiService.sentences reply
        /\ App.toneDescription s' = geminiService.toneDescription reply
        /\ App.isLoading s' = false).
Proof.
  intros result s'; subst result s'.
  unfold handleGenerateReply.
  handleGenerateReply_cases; [apply String.eqb_eq in B; by left | ..].
  all: try (right; left; eexists; cbn; repeat split; reflexivity).
  all: right; right; eexists; cbn; split; [| repeat split; reflexivity].
  all: apply list_elem_of_In; cbn; auto 10.
Qed.

(** Whenever the model is contacted, the display has been cleared. *)
Lemma api_calls_cleared message_arg s0 :
  Forall (fun es => App.is_api_call es.1 = true -> App.cleared es.2)
    (handleGenerateReply message_arg s0).1.1.
Proof.
  unfold handleGenerateReply. handleGenerateReply_cases; cbn.
  all: repeat constructor; cbn; try discriminate.
Qed.

(** C10: an invocation of [handleGenerateReply] that contacts the model
    has cleared the reply sentences, the tone description and the error
    before each request; it ends either in the error stage, with an error
    message and an empty reply sentence list, or in the done stage, with
    the sentences of the generated reply and no error.  So an error
    message and a reply generated by the same invocation are never shown
    together, and a state in the error stage shows no reply (an invocation
    on a blank message only sets its own validation message and leaves the
    rest of the state as it was). *)
Theorem handleGenerateReply_error_excludes_reply message_arg s0 :
  let result := handleGenerateReply message_arg s0 in
  let s' := result.1.2 in
  (forall e s, (e, s) ∈ result.1.1 -> App.is_api_call e = true ->
     App.cleared s)
  /\ (trim (App.finalMessage_of message_arg s0) <> "" ->
        (App.stage_of (App.progress s') = App.Failed
         /\ (exists m, App.error s' = Some m)
         /\ App.replySentences s' = Some (JArr [])
         /\ App.toneDescription s' = Some (JStr ""))
        \/ (App.stage_of (App.progress s') = App.Done
            /\ App.error s' = None
            /\ exists reply,
                 App.GenerateBilingualReplySettled (Normal reply)
                   ∈ App.pipeline_events result.1.1
                 /\ App.replySentences s' = geminiService.sentences reply
                 /\ App.toneDescription s'
                    = geminiService.toneDescription reply))
  /\ (trim (App.finalMessage_of message_arg s0) = "" ->
        s' = App.with_error (Some "Please enter a student message.") s0)
  /\ (error_shows_no_reply s0 -> error_shows_no_reply s').
Proof.
  intros result s'.
  assert (Blank : trim (App.finalMessage_of message_arg s0) = "" ->
                  s' = App.with_error (Some "Please enter a student message.")
                         s0).
  { intros B. subst s' result.
    unfold handleGenerateReply, App.handleGenerateReply.
    apply String.eqb_eq in B. rewrite B. reflexivity. }
  assert (Ends : trim (App.finalMessage_of message_arg s0) <> "" ->
                 (App.stage_of (App.progress s') = App.Failed
                  /\ (exists m, App.error s' = Some m)
                  /\ App.replySentences s' = Some (JArr [])
                  /\ App.toneDescription s' = Some (JStr ""))
                 \/ (App.stage_of (App.progress s') = App.Done
                     /\ App.error s' = None
                     /\ exists reply,
                          App.GenerateBilingualReplySettled (Normal reply)
                            ∈ App.pipeline_events result.1.1
                          /\ App.replySentences s'
                             = geminiService.sentences reply
                          /\ App.toneDescription s'
                             = geminiService.toneDescription reply)).
  { intros NB.
    destruct (final_state_cases message_arg s0)
      as [[B _] | [(m & P & Er & R & T & _) | (reply & S & P & Er & R & T & _)]].
    - contradiction.
    - left. fold result in P, Er, R, T. fold s' in P, Er, R, T.
      rewrite P. eauto.
    - right. fold result in S, P, Er, R, T. fold s' in P, Er, R, T.
      rewrite P. eauto 6. }
  split; [| split; [exact Ends | split; [exact Blank |]]].
  - intros e s In_t.
    exact (proj1 (Forall_forall _ _) (api_calls_cleared message_arg s0)
             (e, s) In_t).
  - intros Inv0 F.
    destruct (String.eqb (trim (App.finalMessage_of message_arg s0)) "")
      eqn:B.
    + apply String.eqb_eq in B. rewrite (Blank B) in F |- *. exact (Inv0 F).
    + apply String.eqb_neq in B.
      destruct (Ends B) as [(_ & _ & R & _) | (D & _)]; [exact R |].
      rewrite D in F. discriminate F.
Qed.

(** What the second stage is called with is read from the closure. *)
Lemma stage_two_call_reads_closure message_arg s0 i m c tone pf tn st :
  App.pipeline_events (handleGenerateReply message_arg s0).1.1 !! i
    = Some (App.GenerateBilingualReplyCalled m c tone pf tn st) ->
  tone = Some (JStr (App.replyTone s0))
  /\ get_prop (App.settings s0) "platform" = Normal pf.
Proof.
  unfold handleGenerateReply. handleGenerateReply_cases; cbn.
  all: destruct i as [| [| [| [| [| [| i]]]]]]; cbn; try discriminate.
  all: intros [= <- <- <- <- <- <-]; auto.
Qed.

End PipelineFacts.

(** *** Runs of the pipeline on the reference platform *)

(** Both stages succeed. *)
Example run_done :
  let r := run_with good_analysis good_reply
             (Some "I am enjoying the lessons") in
  stages_of r = [App.Reading; App.Detecting; App.Drafting; App.Done]
  /\ App.error r.1.2 = None
  /\ App.replySentences r.1.2
     = Some (JArr [JObj [ ("englishSentence", JStr "Glad to hear it!");
                          ("arabicSentence", JStr "يسعدني ذلك") ]])
  /\ App.messageType r.1.2 = Some (JStr "Current student")
  /\ r.2 = Normal tt.
Proof. vm_compute. repeat split. Qed.

(** The analysis answers [null]: reading [context.messageType] throws in
    the detecting stage. *)
Example run_fails_detecting :
  let r := run_with (Fulfilled (Some "null")) good_reply
             (Some "I am enjoying the lessons") in
  stages_of r = [App.Reading; App.Detecting; App.Failed]
  /\ App.error r.1.2
     = Some "Cannot read properties of null (reading 'messageType')"
  /\ App.replySentences r.1.2 = Some (JArr [])
  /\ r.2 = Normal tt.
Proof. vm_compute. repeat split. Qed.

(** The analysis call is rejected and the fallback is used; then the reply
    call is rejected too. *)
Example run_fails_drafting :
  let offline := Rejected (mkError TypeError "Failed to fetch") in
  let r := run_with offline offline (Some "I am enjoying the lessons") in
  stages_of r = [App.Reading; App.Detecting; App.Drafting; App.Failed]
  /\ App.detectedContext r.1.2 = geminiService.fallback_context
  /\ App.error r.1.2 = Some (message geminiService.generic_reply_error)
  /\ App.replySentences r.1.2 = Some (JArr [])
  /\ r.2 = Normal tt.
Proof. vm_compute. repeat split. Qed.

(** A blank message. *)
Example run_blank :
  let r := run_with good_analysis good_reply (Some "   ") in
  r = ([], App.with_error (Some "Please enter a student message.")
             first_render, Normal tt).
Proof. vm_compute. reflexivity. Qed.

(** The stored settings hold a teacher name that has no string form: the
    prompt of the reply cannot be built, and the invocation fails in the
    drafting stage without a second request. *)
Example run_fails_before_request :
  let nameless :=
    JObj [ ("teacherName", JObj [("toString", JNum 1 0)]);
           ("signature", JStr ""); ("platform", JStr "WhatsApp");
           ("theme", JStr "dark") ] in
  let m := "I am enjoying the lessons" in
  let r := App.handleGenerateReply (Reference.model good_analysis good_reply)
             Reference.JSON_parse Reference.trim Reference.random_index
             (Some m) (App.initial_state nameless (JArr [])) in
  Reference.JSON_parse
    (Reference.json_text
       "{'teacherName':{'toString':1},'signature':'','platform':'WhatsApp','theme':'dark'}")
  = Some nameless
  /\ stages_of r = [App.Reading; App.Detecting; App.Drafting; App.Failed]
  /\ List.filter App.is_api_call r.1.1.*1
     = [App.ServiceEvent (ApiCall (geminiService.analysis_request m))]
  /\ App.ServiceEvent
       (ConsoleError "Error generating bilingual reply:" cannot_convert)
     ∈ r.1.1.*1
  /\ App.error r.1.2 = Some (message geminiService.generic_reply_error)
  /\ App.replySentences r.1.2 = Some (JArr []).
Proof.
  vm_compute. repeat split. apply list_elem_of_In. cbn. auto 20.
Qed.

(** Both stages succeed: the six events, and the four stages up to done. *)
Lemma handleGenerateReply_stages_sequential_witness :
  let message_arg := Some "I am enjoying the lessons" in
  let m := "I am enjoying the lessons" in
  let context :=
    JObj [ ("messageType", JStr "Current student");
           ("sentiment", JStr "Positive"); ("detectedLanguage", JStr "en") ] in
  let prompt :=
    ReplyPrompt (Some (JStr "Teacher")) (Some (JStr "WhatsApp"))
      (Some (JStr "student")) m (Some (JStr "Current student"))
      (Some (JStr "Positive")) (Some (JStr "Friendly")) in
  let reply :=
    geminiService.mkReply
      (Some (JArr [JObj [ ("englishSentence", JStr "Glad to hear it!");
                          ("arabicSentence", JStr "يسعدني ذلك") ]]))
      (Some (JStr "Warm")) in
  Reference.trim (App.finalMessage_of message_arg first_render) <> ""
  /\ App.pipeline_events (run_with good_analysis good_reply message_arg).1.1
     = [ App.AnalyzeContextCalled m;
         App.ServiceEvent (ApiCall (geminiService.analysis_request m));
         App.AnalyzeContextSettled (Normal context);
         App.GenerateBilingualReplyCalled m context (Some (JStr "Friendly"))
           (Some (JStr "WhatsApp")) (Some (JStr "Teacher")) undefined;
         App.ServiceEvent (ApiCall (geminiService.reply_request prompt));
         App.GenerateBilingualReplySettled (Normal reply) ].
Proof.
  intros message_arg m context prompt reply.
  assert (NB : Reference.trim (App.finalMessage_of message_arg first_render)
               <> "") by (intros H; vm_compute in H; discriminate H).
  split; [exact NB |].
  destruct (handleGenerateReply_stages_sequential
              (Reference.model good_analysis good_reply) Reference.JSON_parse
              Reference.trim Reference.random_index message_arg first_render)
    as (_ & Run & _).
  destruct (Run NB) as (t & c & A & _ & Called).
  assert (C : c = context).
  { pose proof A as A'. vm_compute in A'. injection A' as _ <-.
    reflexivity. }
  rewrite C in Called.
  destruct (Called _ _ _ _ eq_refl eq_refl eq_refl eq_refl) as [Sent _].
  etransitivity; [exact (Sent prompt eq_refl) |].
  vm_compute. reflexivity.
Defined.

Lemma handleGenerateReply_progress_order_witness :
  let message_arg := Some "I am enjoying the lessons" in
  Reference.trim (App.finalMessage_of message_arg first_render) <> ""
  /\ App.stage_of (App.progress first_render) = App.Idle
  /\ stages_of (run_with good_analysis good_reply message_arg)
     = [App.Reading; App.Detecting; App.Drafting; App.Done].
Proof.
  intros message_arg.
  assert (NB : Reference.trim (App.finalMessage_of message_arg first_render)
               <> "") by (intros H; vm_compute in H; discriminate H).
  split; [exact NB |].
  destruct (handleGenerateReply_progress_order
              (Reference.model good_analysis good_reply) Reference.JSON_parse
              Reference.trim Reference.random_index message_arg first_render)
    as (Start & _ & Run & _).
  split; [exact (Start _ _) |].
  destruct (Run NB) as (t & c & A & _ & _ & Drafted).
  assert (C : c = JObj [ ("messageType", JStr "Current student");
                         ("sentiment", JStr "Positive");
                         ("detectedLanguage", JStr "en") ]).
  { pose proof A as A'. vm_compute in A'. injection A' as _ <-.
    reflexivity. }
  rewrite C in Drafted.
  etransitivity; [exact (Drafted _ _ _ _ eq_refl eq_refl eq_refl eq_refl) |].
  vm_compute. reflexivity.
Defined.

(** ** Tone and platform options *)

(** C7, as stated, fails for the platform.  The program renders no
    platform selector: the platform is a property of the settings, which
    the first render loads from local storage as they parse.  With
    settings in storage whose platform is "Telegram", which is no
    [IntegrationPlatform], the value is neither rejected nor ignored: the
    settings of the state hold it, and the reply generator is called with
    it and puts it into the prompt of its request. *)
Lemma stored_platform_reaches_reply_request :
  let stored :=
    Reference.json_text
      "{'teacherName':'Teacher','signature':'','platform':'Telegram','theme':'dark'}" in
  let storage :=
    App.mkStorage {[ App.settings_key := stored ]} false 5242880%N in
  let loaded :=
    JObj [ ("teacherName", JStr "Teacher"); ("signature", JStr "");
           ("platform", JStr "Telegram"); ("theme", JStr "dark") ] in
  let context :=
    JObj [ ("messageType", JStr "Current student");
           ("sentiment", JStr "Positive"); ("detectedLanguage", JStr "en") ] in
  let calls :=
    App.pipeline_events
      (App.handleGenerateReply (Reference.model good_analysis good_reply)
         Reference.JSON_parse Reference.trim Reference.random_index
         (Some "I am enjoying the lessons")
         (App.initial_state loaded (JArr []))).1.1 in
  ("Telegram" ∉ IntegrationPlatform_values)
  /\ App.useLocalStorage_init Reference.JSON_parse App.settings_key
       App.default_settings storage
     = ([], loaded)
  /\ calls !! 3
     = Some (App.GenerateBilingualReplyCalled "I am enjoying the lessons"
               context (Some (JStr "Friendly")) (Some (JStr "Telegram"))
               (Some (JStr "Teacher")) undefined)
  /\ calls !! 4
     = Some (App.ServiceEvent (ApiCall (geminiService.reply_request
               (ReplyPrompt (Some (JStr "Teacher")) (Some (JStr "Telegram"))
                  (Some (JStr "student")) "I am enjoying the lessons"
                  (Some (JStr "Current student")) (Some (JStr "Positive"))
                  (Some (JStr "Friendly"))))))
  /\ exists reply,
       calls !! 5 = Some (App.GenerateBilingualReplySettled (Normal reply)).
Proof.
  split.
  - intros H. apply list_elem_of_In in H. cbn in H.
    repeat (destruct H as [H | H]; [discriminate H |]). exact H.
  - split; [vm_compute; reflexivity |].
    split; [vm_compute; reflexivity |].
    split; [vm_compute; reflexivity |].
    eexists. vm_compute. reflexivity.
Qed.

(** C7, amended: [TONE_OPTIONS] lists exactly the six [ReplyTone] values
    and [PLATFORM_OPTIONS] exactly the three [IntegrationPlatform] values,
    each once.  The tone select offers the values of [TONE_OPTIONS], so a
    tone chosen from it is one of the six, and the reply generator is
    called with the tone of the state.  The platform is not chosen through
    [PLATFORM_OPTIONS] and is checked nowhere: the settings are the default
    ones or whatever the stored text parses to, and the reply generator is
    called with the [platform] property of the settings as it is. *)
Theorem tone_and_platform_options_closed :
  (forall v, v ∈ value_ <$> TONE_OPTIONS <->
             exists t : ReplyTone, v = ReplyTone_value t)
  /\ NoDup (value_ <$> TONE_OPTIONS)
  /\ length TONE_OPTIONS = 6
  /\ (forall v, v ∈ value_ <$> PLATFORM_OPTIONS <->
                exists p : IntegrationPlatform, v = IntegrationPlatform_value p)
  /\ NoDup (value_ <$> PLATFORM_OPTIONS)
  /\ length PLATFORM_OPTIONS = 3
  /\ App.tone_select_values = value_ <$> TONE_OPTIONS
  /\ (forall v s, v ∈ App.tone_select_values ->
        exists t : ReplyTone,
          App.onReplyToneChange v s
          = ([], App.with_replyTone (ReplyTone_value t) s, Normal tt))
  /\ (forall JSON_parse storage,
        let loaded :=
          (App.useLocalStorage_init JSON_parse App.settings_key
             App.default_settings storage).2 in
        loaded = App.default_settings
        \/ exists text, App.items storage !! App.settings_key = Some text
                        /\ JSON_parse text = Some loaded)
  /\ (forall generateContent JSON_parse trim random_index message_arg s0
             i m c tone pf tn st,
        App.pipeline_events
          (App.handleGenerateReply generateContent JSON_parse trim
             random_index message_arg s0).1.1 !! i
          = Some (App.GenerateBilingualReplyCalled m c tone pf tn st) ->
        tone = Some (JStr (App.replyTone s0))
        /\ get_prop (App.settings s0) "platform" = Normal pf).
Proof.
  assert (Tone : forall v, v ∈ value_ <$> TONE_OPTIONS <->
                           exists t : ReplyTone, v = ReplyTone_value t).
  { intros v. split.
    - intros H. apply list_elem_of_In in H. cbn in H.
      destruct H as [<- | [<- | [<- | [<- | [<- | [<- | []]]]]]];
        [ exists FRIENDLY | exists WARM_MOTIVATIONAL | exists FORMAL
        | exists BRIEF_DIRECT | exists ISLAMIC | exists FOR_KIDS ];
        reflexivity.
    - intros [t ->]. apply list_elem_of_In. destruct t; cbn; auto 10. }
  split; [exact Tone |].
  split; [apply (bool_decide_unpack _); vm_compute; exact I |].
  split; [reflexivity |].
  split.
  { intros v. split.
    - intros H. apply list_elem_of_In in H. cbn in H.
      destruct H as [<- | [<- | [<- | []]]];
        [ exists WHATSAPP | exists EMAIL | exists GENERIC ]; reflexivity.
    - intros [p ->]. apply list_elem_of_In. destruct p; cbn; auto 10. }
  split; [apply (bool_decide_unpack _); vm_compute; exact I |].
  split; [reflexivity |].
  split; [reflexivity |].
  split.
  { intros v s H. destruct (proj1 (Tone v) H) as [t ->]. exists t.
    reflexivity. }
  split.
  - intros parse storage loaded; subst loaded.
    unfold App.useLocalStorage_init, App.getItem.
    destruct (App.denied storage); [left; reflexivity |].
    destruct (App.items storage !! App.settings_key) as [text |] eqn:L;
      [| left; reflexivity].
    destruct (String.eqb text ""); [left; reflexivity |].
    destruct (parse text) as [v |] eqn:P; [| left; reflexivity].
    right. exists text. split; [reflexivity | exact P].
  - intros gc parse trim rnd message_arg s0 i m c tone pf tn st.
    exact (stage_two_call_reads_closure gc parse trim rnd message_arg s0
             i m c tone pf tn st).
Qed.

(** ** Settings and local storage *)

Lemma lookup_set_field k v fs : lookup_field k (set_field k v fs) = Some v.
Proof.
  induction fs as [| [k' v'] fs IH]; simpl.
  - by rewrite String.eqb_refl.
  - destruct (String.eqb k k') eqn:E; simpl.
    + by rewrite String.eqb_refl.
    + by rewrite E.
Qed.

(** The theme after the toggle: light if it was dark, dark otherwise. *)
Lemma toggle_theme_theme s t :
  App.toggle_theme s = Normal t ->
  exists old,
    get_prop s "theme" = Normal old
    /\ get_prop t "theme"
       = Normal (Some (JStr (if App.is_dark old then "light" else "dark"))).
Proof.
  unfold App.toggle_theme. destruct (get_prop s "theme") as [old | e];
    [| discriminate].
  intros [= <-]. exists old. split; [reflexivity |].
  simpl. by rewrite lookup_set_field.
Qed.

(** A write that is accepted is read back. *)
Lemma getItem_setItem st key v st' :
  App.setItem st key v = Normal st' ->
  App.getItem st' key = Normal (Some v).
Proof.
  unfold App.setItem, App.getItem. destruct (App.denied st);
    [discriminate |].
  destruct (_ <=? _)%N; [| discriminate].
  intros [= <-]. simpl. by rewrite lookup_insert_eq.
Qed.

(** C8: the theme round-trips through storage.  When the theme button's
    updater is passed to the setter of [useLocalStorage('appSettings_v3')]
    and local storage accepts the write, initializing the hook again with
    the same key (a reload) yields the settings that were written, with the
    toggled theme; this for a [JSON.parse] that reads back what
    [JSON.stringify] wrote of these settings. *)
Theorem theme_round_trip :
  forall (JSON_parse : string -> option json) (JSON_stringify : json -> string)
         (the_settings toggled : json) (st st' : App.Storage),
    App.toggle_theme the_settings = Normal toggled ->
    App.setItem st App.settings_key (JSON_stringify toggled) = Normal st' ->
    JSON_stringify toggled <> "" ->
    JSON_parse (JSON_stringify toggled) = Some toggled ->
    App.setValue JSON_stringify App.settings_key
      (App.Updater App.toggle_theme) the_settings st
    = ([], toggled, st')
    /\ App.useLocalStorage_init JSON_parse App.settings_key
         App.default_settings st'
       = ([], toggled)
    /\ exists old,
         get_prop the_settings "theme" = Normal old
         /\ get_prop toggled "theme"
            = Normal (Some (JStr (if App.is_dark old then "light"
                                  else "dark"))).
Proof.
  intros parse stringify s t st st' T W NE RT. split; [| split].
  - unfold App.setValue. rewrite T, W. reflexivity.
  - unfold App.useLocalStorage_init.
    rewrite (getItem_setItem _ _ _ _ W).
    apply String.eqb_neq in NE. rewrite NE, RT. reflexivity.
  - exact (toggle_theme_theme s t T).
Qed.

(** The first toggle of a fresh installation: from the default, dark,
    settings to light ones, written to an empty storage. *)
Lemma theme_round_trip_witness :
  let toggled :=
    JObj [ ("teacherName", JStr "Teacher"); ("signature", JStr "");
           ("platform", JStr "WhatsApp"); ("theme", JStr "light") ] in
  exists st',
    App.toggle_theme App.default_settings = Normal toggled
    /\ App.setItem Reference.empty_storage App.settings_key
         (Reference.JSON_stringify toggled) = Normal st'
    /\ App.setValue Reference.JSON_stringify App.settings_key
         (App.Updater App.toggle_theme) App.default_settings
         Reference.empty_storage
       = ([], toggled, st')
    /\ App.useLocalStorage_init Reference.JSON_parse App.settings_key
         App.default_settings st'
       = ([], toggled)
    /\ get_prop toggled "theme" = Normal (Some (JStr "light")).
Proof.
  intros toggled.
  assert (W : exists st',
             App.setItem Reference.empty_storage App.settings_key
               (Reference.JSON_stringify toggled) = Normal st')
    by (vm_compute; eexists; reflexivity).
  destruct W as [st' W]. exists st'.
  destruct (theme_round_trip Reference.JSON_parse Reference.JSON_stringify
              App.default_settings toggled Reference.empty_storage st'
              eq_refl W ltac:(discriminate) eq_refl) as (S & L & _).
  repeat split; assumption || reflexivity.
Defined.

(** When local storage refuses the write, the state changes and the
    storage does not. *)
Lemma setValue_write_refused JSON_stringify key f v v' st e :
  f v = Normal v' ->
  App.setItem st key (JSON_stringify v') = Throw e ->
  App.setValue JSON_stringify key (App.Updater f) v st = ([e], v', st).
Proof. intros F W. unfold App.setValue. rewrite F, W. reflexivity. Qed.

(** ** The clipboard *)

(** C9 fails where the browser has no Clipboard API: with
    [navigator.clipboard] undefined, [handleCopyToClipboard] throws a
    [TypeError] to its caller for the empty string, whatever the id and
    the language. *)
Theorem handleCopyToClipboard_throws_without_clipboard :
  forall (id lang : string) (s : App.AppState),
    App.handleCopyToClipboard None "" id lang s
    = ([], s, Throw (cannot_read_undefined "writeText")).
Proof. reflexivity. Qed.

(** With a Clipboard API, whether the write succeeds or not, nothing is
    thrown to the caller. *)
Lemma handleCopyToClipboard_with_clipboard :
  forall writeText (text id lang : string) (s : App.AppState),
    (App.handleCopyToClipboard (Some writeText) text id lang s).2 = Normal tt.
Proof.
  intros writeText text id lang s. unfold App.handleCopyToClipboard.
  destruct (writeText text); reflexivity.
Qed.

(** The read-aloud handler checks for its API and never throws. *)
Lemma handleReadAloud_never_throws :
  forall speechSynthesis_in_window (text langCode : string)
         (s : App.AppState),
    (App.handleReadAloud speechSynthesis_in_window text langCode s).2
    = Normal tt.
Proof. intros [] text langCode s; reflexivity. Qed.

(** * Further properties *)

(** ** The reply generator: what it returns *)

Lemma interpolate_cases v :
  interpolate v = Normal v \/ interpolate v = Throw cannot_convert.
Proof.
  destruct v as [j |]; [| left; reflexivity]. unfold interpolate.
  destruct (to_string_returns j); auto.
Qed.

(** X1: when the response of the model parses to an object with a
    non-empty [sentences] array, [generateBilingualReply] returns that
    array as it is, together with the [toneDescription] of the response,
    or "⭐ Balanced" when that one is missing or falsy; nothing is
    logged. *)
Theorem generateBilingualReply_returns_sentences :
  forall generateContent JSON_parse trim (studentMessage : string)
         (context : json) (tone platform teacherName student : value)
         (prompt : Prompt) (text : string) (parsedResponse first : json)
         (others : list json),
    geminiService.reply_prompt studentMessage context tone platform
      teacherName student = Normal prompt ->
    generateContent (geminiService.reply_request prompt)
      = Fulfilled (Some text) ->
    JSON_parse (trim text) = Some parsedResponse ->
    get_prop parsedResponse "sentences"
      = Normal (Some (JArr (first :: others))) ->
    exists described,
      get_prop parsedResponse "toneDescription" = Normal described
      /\ geminiService.generateBilingualReply generateContent JSON_parse
           trim studentMessage context tone platform teacherName student
         = ([ApiCall (geminiService.reply_request prompt)],
            Normal {| geminiService.sentences :=
                        Some (JArr (first :: others));
                      geminiService.toneDescription :=
                        if truthy described then described
                        else Some (JStr "⭐ Balanced") |}).
Proof.
  intros gc parse trim m c tone pf tn st p text parsed x l H G P S.
  destruct (get_prop_not_null parsed _ _ "toneDescription" S) as [d D].
  exists d. split; [exact D |].
  apply generateBilingualReply_passed.
  unfold geminiService.reply_attempt, svc_bind, svc_lift,
    geminiService.await_generateContent.
  rewrite H, G. simpl. unfold geminiService.parse. rewrite P. simpl.
  rewrite S. simpl. rewrite D. reflexivity.
Qed.

Lemma generateBilingualReply_returns_sentences_witness :
  let text := Reference.json_text
    "{'sentences':[{'englishSentence':'Hi','arabicSentence':'x'}]}" in
  let only := JObj [("englishSentence", JStr "Hi");
                    ("arabicSentence", JStr "x")] in
  Reference.JSON_parse (Reference.trim text)
    = Some (JObj [("sentences", JArr [only])])
  /\ snd (geminiService.generateBilingualReply
            (fun _ => Fulfilled (Some text)) Reference.JSON_parse
            Reference.trim "I enjoy the lessons"
            geminiService.fallback_context (Some (JStr "Friendly"))
            (Some (JStr "WhatsApp")) (Some (JStr "Teacher")) undefined)
     = Normal {| geminiService.sentences := Some (JArr [only]);
                 geminiService.toneDescription :=
                   Some (JStr "⭐ Balanced") |}.
Proof.
  split; [reflexivity |].
  destruct (generateBilingualReply_returns_sentences
              (fun _ => Fulfilled (Some (Reference.json_text
                 "{'sentences':[{'englishSentence':'Hi','arabicSentence':'x'}]}")))
              Reference.JSON_parse Reference.trim "I enjoy the lessons"
              geminiService.fallback_context (Some (JStr "Friendly"))
              (Some (JStr "WhatsApp")) (Some (JStr "Teacher")) undefined
              _ _ _ _ _ eq_refl eq_refl eq_refl eq_refl) as (d & D & E).
  rewrite E. injection D as <-. reflexivity.
Defined.

(** X2: a reply that [generateBilingualReply] returns always has truthy
    [sentences] that are not the empty array and a truthy
    [toneDescription]; it was obtained with one request and without a
    logged error. *)
Theorem generateBilingualReply_result_not_empty :
  forall generateContent JSON_parse trim (studentMessage : string)
         (context : json) (tone platform teacherName student : value)
         (t : list SvcEvent) (reply : geminiService.GeneratedReply),
    geminiService.generateBilingualReply generateContent JSON_parse trim
      studentMessage context tone platform teacherName student
    = (t, Normal reply) ->
    truthy (geminiService.sentences reply) = true
    /\ geminiService.sentences reply <> Some (JArr [])
    /\ truthy (geminiService.toneDescription reply) = true
    /\ exists prompt,
         geminiService.reply_prompt studentMessage context tone platform
           teacherName student = Normal prompt
         /\ t = [ApiCall (geminiService.reply_request prompt)].
Proof.
  intros gc parse trim m c tone pf tn st t reply E.
  destruct (geminiService.reply_attempt gc parse trim m c tone pf tn st)
    as [t' [r | e]] eqn:A.
  2: { rewrite (generateBilingualReply_caught _ _ _ _ _ _ _ _ _ _ _ A) in E.
       discriminate E. }
  rewrite (generateBilingualReply_passed _ _ _ _ _ _ _ _ _ _ _ A) in E.
  injection E as -> ->.
  revert A. unfold geminiService.reply_attempt, svc_bind, svc_lift,
    geminiService.await_generateContent.
  destruct (geminiService.reply_prompt m c tone pf tn st) as [p | e];
    [| discriminate].
  destruct (gc (geminiService.reply_request p)) as [e | [text |]]; simpl;
    try discriminate.
  unfold geminiService.parse.
  destruct (parse (trim text)) as [j |]; simpl; try discriminate.
  destruct (get_prop j "sentences") as [v | e]; simpl; try discriminate.
  unfold geminiService.no_sentences.
  destruct (truthy v) eqn:T; simpl; try discriminate.
  destruct (get_prop_value v "length") as [len | e] eqn:L; simpl;
    try discriminate.
  destruct (is_zero len) eqn:Z; simpl; try discriminate.
  destruct (get_prop j "toneDescription") as [w | e]; simpl;
    try discriminate.
  intros [= <- <-]. simpl. repeat split.
  - exact T.
  - intros ->. simpl in L. injection L as <-. discriminate Z.
  - unfold js_or. destruct (truthy w) eqn:W; [exact W | reflexivity].
  - exists p. split; reflexivity.
Qed.

Lemma generateBilingualReply_result_not_empty_witness :
  exists t reply,
    geminiService.generateBilingualReply (Reference.model good_analysis
        good_reply) Reference.JSON_parse Reference.trim
      "I enjoy the lessons" geminiService.fallback_context
      (Some (JStr "Friendly")) (Some (JStr "WhatsApp"))
      (Some (JStr "Teacher")) undefined
    = (t, Normal reply)
    /\ truthy (geminiService.sentences reply) = true
    /\ geminiService.sentences reply <> Some (JArr []).
Proof.
  eexists _, _.
  assert (E : geminiService.generateBilingualReply
                (Reference.model good_analysis good_reply)
                Reference.JSON_parse Reference.trim "I enjoy the lessons"
                geminiService.fallback_context (Some (JStr "Friendly"))
                (Some (JStr "WhatsApp")) (Some (JStr "Teacher")) undefined
              = _) by (vm_compute; reflexivity).
  split; [exact E |].
  destruct (generateBilingualReply_result_not_empty _ _ _ _ _ _ _ _ _ _ _ E)
    as (T & N & _).
  split; [exact T | exact N].
Defined.

(** X3: the guard of [generateBilingualReply] does not ask for an array.
    A response whose [sentences] is a non-empty string passes it: the
    string is returned as the sentences of the reply, although the
    response violates the reply schema. *)
Theorem generateBilingualReply_accepts_string_sentences :
  forall generateContent JSON_parse trim (studentMessage : string)
         (context : json) (tone platform teacherName student : value)
         (prompt : Prompt) (text : string) (parsedResponse : json)
         (s : string),
    geminiService.reply_prompt studentMessage context tone platform
      teacherName student = Normal prompt ->
    generateContent (geminiService.reply_request prompt)
      = Fulfilled (Some text) ->
    JSON_parse (trim text) = Some parsedResponse ->
    get_prop parsedResponse "sentences" = Normal (Some (JStr s)) ->
    s <> "" ->
    conforms geminiService.replyGenerationSchema parsedResponse = false
    /\ exists reply,
         geminiService.generateBilingualReply generateContent JSON_parse
           trim studentMessage context tone platform teacherName student
         = ([ApiCall (geminiService.reply_request prompt)], Normal reply)
         /\ geminiService.sentences reply = Some (JStr s).
Proof.
  intros gc parse trim m c tone pf tn st p text parsed s H G P S NE.
  split.
  - destruct parsed as [| | | | | fs]; try reflexivity.
    simpl in S. injection S as S. simpl. rewrite S. simpl.
    apply andb_false_r.
  - destruct (get_prop_not_null parsed _ _ "toneDescription" S) as [d D].
    eexists. split.
    + apply generateBilingualReply_passed.
      unfold geminiService.reply_attempt, svc_bind, svc_lift,
        geminiService.await_generateContent.
      rewrite H, G. simpl. unfold geminiService.parse. rewrite P. simpl.
      rewrite S. destruct s as [| a s']; [contradiction |]. simpl.
      rewrite D. reflexivity.
    + reflexivity.
Qed.

Lemma generateBilingualReply_accepts_string_sentences_witness :
  let text := Reference.json_text "{'sentences':'Well done!'}" in
  Reference.JSON_parse (Reference.trim text)
    = Some (JObj [("sentences", JStr "Well done!")])
  /\ conforms geminiService.replyGenerationSchema
       (JObj [("sentences", JStr "Well done!")]) = false
  /\ exists reply,
       snd (geminiService.generateBilingualReply
              (fun _ => Fulfilled (Some text)) Reference.JSON_parse
              Reference.trim "I enjoy the lessons"
              geminiService.fallback_context (Some (JStr "Friendly"))
              (Some (JStr "WhatsApp")) (Some (JStr "Teacher")) undefined)
       = Normal reply
       /\ geminiService.sentences reply = Some (JStr "Well done!").
Proof.
  split; [reflexivity |].
  destruct (generateBilingualReply_accepts_string_sentences
              (fun _ => Fulfilled (Some (Reference.json_text
                 "{'sentences':'Well done!'}")))
              Reference.JSON_parse Reference.trim "I enjoy the lessons"
              geminiService.fallback_context (Some (JStr "Friendly"))
              (Some (JStr "WhatsApp")) (Some (JStr "Teacher")) undefined
              _ _ _ "Well done!" eq_refl eq_refl eq_refl eq_refl
              ltac:(discriminate)) as (C & reply & E & S).
  split; [exact C |]. exists reply. rewrite E. split; [reflexivity | exact S].
Defined.

(** X4: neither stage retries.  [analyzeContext] sends exactly one request
    to the model, whatever comes back.  [generateBilingualReply] sends
    exactly one request when its prompt can be built and none when it
    cannot; then the cause is logged and the generic error raised.  The
    prompt can be built exactly when the context is not [null] and each
    value that the template interpolates has a string form. *)
Theorem service_calls_send_one_request :
  forall generateContent JSON_parse trim (studentMessage : string)
         (context : json) (tone platform teacherName student : value),
    let prompt :=
      geminiService.reply_prompt studentMessage context tone platform
        teacherName student in
    let reply :=
      geminiService.generateBilingualReply generateContent JSON_parse trim
        studentMessage context tone platform teacherName student in
    let converts v := interpolate v = Normal v in
    requests (geminiService.analyzeContext generateContent JSON_parse trim
                studentMessage).1
    = [geminiService.analysis_request studentMessage]
    /\ (forall p, prompt = Normal p ->
          requests reply.1 = [geminiService.reply_request p])
    /\ (forall cause, prompt = Throw cause ->
          reply = ([ConsoleError "Error generating bilingual reply:" cause],
                   Throw geminiService.generic_reply_error))
    /\ ((exists p, prompt = Normal p) <->
        converts teacherName /\ converts platform
        /\ converts (js_or (get_prop_opt student "name")
                       (Some (JStr "student")))
        /\ context <> JNull
        /\ (forall v, get_prop context "messageType" = Normal v -> converts v)
        /\ (forall v, get_prop context "sentiment" = Normal v -> converts v)
        /\ converts tone).
Proof.
  intros gc parse trim m c tone pf tn st prompt reply converts.
  subst prompt reply converts. split; [| split; [| split]].
  - destruct (analyzeContext_shape gc parse trim m)
      as (c' & log & -> & [-> | [e ->]]); reflexivity.
  - intros p P.
    destruct (generateBilingualReply_shape gc parse trim m c tone pf tn st)
      as [(cause & Q & _) | (p' & Q & [[reply ->] | [cause ->]])];
      rewrite P in Q; simplify_eq; reflexivity.
  - intros cause P.
    destruct (generateBilingualReply_shape gc parse trim m c tone pf tn st)
      as [(cause' & Q & ->) | (p' & Q & _)];
      rewrite P in Q; simplify_eq; reflexivity.
  - unfold geminiService.reply_prompt.
    destruct (interpolate_cases tn) as [-> | ->]; cbn [and_then];
      [| split; [intros [? ?] | intros (? & _)]; discriminate].
    destruct (interpolate_cases pf) as [-> | ->]; cbn [and_then];
      [| split; [intros [? ?] | intros (_ & ? & _)]; discriminate].
    destruct (interpolate_cases
                (js_or (get_prop_opt st "name") (Some (JStr "student"))))
      as [-> | ->]; cbn [and_then];
      [| split; [intros [? ?] | intros (_ & _ & ? & _)]; discriminate].
    destruct (get_prop c "messageType") as [mt | e] eqn:Hmt; cbn [and_then];
      [| split; [intros [? ?]; discriminate
                | intros (_ & _ & _ & NN & _); destruct c; try discriminate;
                  contradiction]].
    assert (NN : c <> JNull) by (intros ->; discriminate).
    destruct (interpolate_cases mt) as [Imt | Imt]; rewrite Imt;
      cbn [and_then];
      [| split; [intros [? ?]; discriminate
                | intros (_ & _ & _ & _ & M & _);
                  specialize (M mt eq_refl); rewrite Imt in M;
                  discriminate]].
    destruct (get_prop c "sentiment") as [se | e] eqn:Hse; cbn [and_then];
      [| destruct c; try discriminate; contradiction].
    destruct (interpolate_cases se) as [Ise | Ise]; rewrite Ise;
      cbn [and_then];
      [| split; [intros [? ?]; discriminate
                | intros (_ & _ & _ & _ & _ & S & _);
                  specialize (S se eq_refl); rewrite Ise in S;
                  discriminate]].
    destruct (interpolate_cases tone) as [-> | ->]; cbn [and_then];
      [| split; [intros [? ?] | intros (_ & _ & _ & _ & _ & _ & ?)];
         discriminate].
    split; [| eauto]. intros _. repeat split; try assumption.
    + intros v [= <-]. exact Imt.
    + intros v [= <-]. exact Ise.
Qed.

(** ** useLocalStorage *)

(** X5: the initializer of [useLocalStorage] never fails and falls back to
    the initial value: it returns a stored value only when the key holds a
    non-empty text that [JSON.parse] accepts.  When the key is missing or
    holds the empty string, nothing is logged; when the storage refuses
    access or the text is not JSON, the error is logged. *)
Theorem useLocalStorage_init_falls_back :
  forall (JSON_parse : string -> option json) (key : string)
         (initialValue : json) (st : App.Storage),
    let result := App.useLocalStorage_init JSON_parse key initialValue st in
    ((exists text, App.denied st = false
                   /\ App.items st !! key = Some text
                   /\ text <> ""
                   /\ JSON_parse text = Some result.2)
     /\ result.1 = [])
    \/ (result.2 = initialValue
        /\ (result.1 = [] <->
            App.denied st = false
            /\ (App.items st !! key = None
                \/ App.items st !! key = Some ""))).
Proof.
  intros parse key init st result. subst result.
  unfold App.useLocalStorage_init, App.getItem.
  destruct (App.denied st).
  { right. split; [reflexivity |]. split; [discriminate | intros [? _]; done]. }
  destruct (App.items st !! key) as [text |] eqn:I.
  2: { right. split; [reflexivity |]. split; [auto | reflexivity]. }
  destruct (String.eqb text "") eqn:E.
  { apply String.eqb_eq in E. subst text. right. split; [reflexivity |].
    split; [auto | reflexivity]. }
  apply String.eqb_neq in E.
  destruct (parse text) as [v |] eqn:P.
  - left. split; [| reflexivity]. exists text. auto.
  - right. split; [reflexivity |]. split; [discriminate |].
    intros [_ [? | [= ->]]]; [discriminate | contradiction].
Qed.

(** A write that is accepted leaves the other keys alone. *)
Lemma getItem_setItem_other st key v st' other :
  App.setItem st key v = Normal st' ->
  other <> key ->
  App.getItem st' other = App.getItem st other.
Proof.
  unfold App.setItem, App.getItem. destruct (App.denied st);
    [discriminate |].
  destruct (_ <=? _)%N; [| discriminate].
  intros [= <-] NE. simpl. by rewrite lookup_insert_ne.
Qed.

(** X6: a write through [setValue] is all or nothing for the storage:
    either no error is logged and the key now holds the serialized new
    value, or one error is logged and the storage is exactly as it was.
    When the updater itself throws, the value in memory stays too. *)
Theorem setValue_all_or_nothing :
  forall (JSON_stringify : json -> string) (key : string)
         (action : App.SetStateAction) (storedValue : json)
         (st : App.Storage),
    let result := App.setValue JSON_stringify key action storedValue st in
    (result.1.1 = []
     /\ App.getItem result.2 key
        = Normal (Some (JSON_stringify result.1.2))
     /\ forall other, other <> key ->
          App.getItem result.2 other = App.getItem st other)
    \/ (exists e, result.1.1 = [e] /\ result.2 = st
        /\ forall f, action = App.Updater f -> f storedValue = Throw e ->
             result.1.2 = storedValue).
Proof.
  intros stringify key action v st result. subst result.
  unfold App.setValue.
  destruct (match action with
            | App.NewValue v0 => Normal v0
            | App.Updater f => f v
            end) as [v' | e] eqn:A.
  - destruct (App.setItem st key (stringify v')) as [st' | e] eqn:W.
    + left. simpl. split; [reflexivity |].
      split; [exact (getItem_setItem _ _ _ _ W) |].
      intros other NE. exact (getItem_setItem_other _ _ _ _ _ W NE).
    + right. exists e. simpl. split; [reflexivity |]. split; [reflexivity |].
      intros f -> F. rewrite F in A. discriminate A.
  - right. exists e. simpl. split; [reflexivity |]. split; [reflexivity |].
    reflexivity.
Qed.

(** X7: what [setValue] stored under a key is what the initializer gives
    back for that key, for every key, value and update (each of the four
    stores of the application), provided no error was logged and
    [JSON.parse] reads back what [JSON.stringify] wrote of the value. *)
Theorem setValue_then_init_round_trip :
  forall (JSON_parse : string -> option json) (JSON_stringify : json -> string)
         (key : string) (action : App.SetStateAction)
         (storedValue initialValue newValue : json) (st st' : App.Storage),
    App.setValue JSON_stringify key action storedValue st
      = ([], newValue, st') ->
    JSON_stringify newValue <> "" ->
    JSON_parse (JSON_stringify newValue) = Some newValue ->
    App.useLocalStorage_init JSON_parse key initialValue st'
      = ([], newValue).
Proof.
  intros parse stringify key action v init v' st st' E NE RT.
  assert (G : App.getItem st' key = Normal (Some (stringify v'))).
  { revert E. unfold App.setValue.
    destruct (match action with
              | App.NewValue v0 => Normal v0
              | App.Updater f => f v
              end) as [w | e]; [| discriminate].
    destruct (App.setItem st key (stringify w)) as [st1 | e] eqn:W;
      [| discriminate].
    intros [= <- <-]. exact (getItem_setItem _ _ _ _ W). }
  unfold App.useLocalStorage_init. rewrite G.
  apply String.eqb_neq in NE. rewrite NE, RT. reflexivity.
Qed.

Lemma setValue_then_init_round_trip_witness :
  let reminders :=
    JArr [JObj [("id", JStr "r1"); ("done", JBool false)]] in
  exists st',
    App.setValue Reference.JSON_stringify "reminders_v3"
      (App.NewValue reminders) (JArr []) Reference.empty_storage
    = ([], reminders, st')
    /\ App.useLocalStorage_init Reference.JSON_parse "reminders_v3" (JArr [])
         st'
       = ([], reminders).
Proof.
  intros reminders.
  assert (W : exists st',
             App.setValue Reference.JSON_stringify "reminders_v3"
               (App.NewValue reminders) (JArr []) Reference.empty_storage
             = ([], reminders, st'))
    by (vm_compute; eexists; reflexivity).
  destruct W as [st' W]. exists st'. split; [exact W |].
  exact (setValue_then_init_round_trip Reference.JSON_parse
           Reference.JSON_stringify "reminders_v3" _ _ (JArr []) reminders
           _ st' W ltac:(discriminate) eq_refl).
Defined.

(** X8: the stores do not interfere: a [setValue] on one key leaves what
    the initializer returns for any other key unchanged. *)
Theorem setValue_other_key_untouched :
  forall (JSON_parse : string -> option json) (JSON_stringify : json -> string)
         (key other : string) (action : App.SetStateAction)
         (storedValue initialValue : json) (st : App.Storage),
    other <> key ->
    App.useLocalStorage_init JSON_parse other initialValue
      (App.setValue JSON_stringify key action storedValue st).2
    = App.useLocalStorage_init JSON_parse other initialValue st.
Proof.
  intros parse stringify key other action v init st NE.
  unfold App.setValue.
  destruct (match action with
            | App.NewValue v0 => Normal v0
            | App.Updater f => f v
            end) as [w | e]; [| reflexivity].
  destruct (App.setItem st key (stringify w)) as [st1 | e] eqn:W;
    [| reflexivity].
  simpl. unfold App.useLocalStorage_init.
  rewrite (getItem_setItem_other _ _ _ _ _ W NE). reflexivity.
Qed.

Lemma setValue_other_key_untouched_witness :
  "students_v3" <> App.settings_key
  /\ App.useLocalStorage_init Reference.JSON_parse "students_v3" (JArr [])
       (App.setValue Reference.JSON_stringify App.settings_key
          (App.Updater App.toggle_theme) App.default_settings
          Reference.empty_storage).2
     = App.useLocalStorage_init Reference.JSON_parse "students_v3" (JArr [])
         Reference.empty_storage.
Proof.
  split; [discriminate |].
  apply setValue_other_key_untouched. discriminate.
Defined.

(** X9: a write that the storage refuses is lost on reload although the
    value in memory has changed: after such a [setValue] the initializer
    returns what it returned before. *)
Theorem setValue_refused_write_is_lost :
  forall (JSON_parse : string -> option json) (JSON_stringify : json -> string)
         (key : string) (f : json -> Completion json)
         (storedValue initialValue newValue : json) (st : App.Storage)
         (e : JsError),
    f storedValue = Normal newValue ->
    App.setItem st key (JSON_stringify newValue) = Throw e ->
    let result :=
      App.setValue JSON_stringify key (App.Updater f) storedValue st in
    result.1 = ([e], newValue)
    /\ App.useLocalStorage_init JSON_parse key initialValue result.2
       = App.useLocalStorage_init JSON_parse key initialValue st.
Proof.
  intros parse stringify key f v init v' st e F W result. subst result.
  rewrite (setValue_write_refused stringify key f v v' st e F W).
  split; reflexivity.
Qed.

Lemma setValue_refused_write_is_lost_witness :
  let full := App.mkStorage ∅ false 10 in
  let toggled :=
    JObj [ ("teacherName", JStr "Teacher"); ("signature", JStr "");
           ("platform", JStr "WhatsApp"); ("theme", JStr "light") ] in
  App.toggle_theme App.default_settings = Normal toggled
  /\ App.setItem full App.settings_key (Reference.JSON_stringify toggled)
     = Throw App.quota_error
  /\ (App.setValue Reference.JSON_stringify App.settings_key
        (App.Updater App.toggle_theme) App.default_settings full).1
     = ([App.quota_error], toggled)
  /\ (App.useLocalStorage_init Reference.JSON_parse App.settings_key
        App.default_settings
        (App.setValue Reference.JSON_stringify App.settings_key
           (App.Updater App.toggle_theme) App.default_settings full).2).2
     = App.default_settings.
Proof.
  intros full toggled.
  assert (W : App.setItem full App.settings_key
                (Reference.JSON_stringify toggled) = Throw App.quota_error)
    by (vm_compute; reflexivity).
  destruct (setValue_refused_write_is_lost Reference.JSON_parse
              Reference.JSON_stringify App.settings_key App.toggle_theme
              App.default_settings App.default_settings toggled full
              App.quota_error eq_refl W) as [S I].
  split; [reflexivity |]. split; [exact W |]. split; [exact S |].
  rewrite I. reflexivity.
Defined.

(** ** The theme *)

Lemma lookup_set_field_ne k k' v fs :
  k' <> k -> lookup_field k' (set_field k v fs) = lookup_field k' fs.
Proof.
  intros NE. induction fs as [| [k0 v0] fs IH]; simpl.
  - apply String.eqb_neq in NE. by rewrite NE.
  - destruct (String.eqb k k0) eqn:E; simpl.
    + apply String.eqb_eq in E. subst k0.
      apply String.eqb_neq in NE. by rewrite NE.
    + destruct (String.eqb k' k0); [reflexivity | exact IH].
Qed.

Lemma set_field_restore k v old fs :
  lookup_field k fs = Some old -> set_field k old (set_field k v fs) = fs.
Proof.
  induction fs as [| [k0 v0] fs IH]; simpl; [discriminate |].
  destruct (String.eqb k k0) eqn:E; simpl.
  - intros [= ->]. rewrite String.eqb_refl.
    apply String.eqb_eq in E. by subst k0.
  - intros L. rewrite E. by rewrite (IH L).
Qed.

(** X10: the theme toggle changes nothing but the theme.  Every other
    property of the settings is kept, and the new theme is light when the
    old one was dark and dark in every other case (also when the stored
    theme was neither). *)
Theorem toggle_theme_keeps_other_settings :
  forall (fields : list (string * json)) (toggled : json),
    App.toggle_theme (JObj fields) = Normal toggled ->
    (forall k, k <> "theme" ->
       get_prop toggled k = get_prop (JObj fields) k)
    /\ get_prop toggled "theme"
       = Normal (Some (JStr (if App.is_dark (lookup_field "theme" fields)
                             then "light" else "dark"))).
Proof.
  intros fs t. unfold App.toggle_theme. simpl. intros [= <-]. split.
  - intros k NE. simpl. by rewrite lookup_set_field_ne.
  - simpl. by rewrite lookup_set_field.
Qed.

Lemma toggle_theme_keeps_other_settings_witness :
  exists toggled,
    App.toggle_theme App.default_settings = Normal toggled
    /\ get_prop toggled "teacherName" = Normal (Some (JStr "Teacher"))
    /\ get_prop toggled "theme" = Normal (Some (JStr "light")).
Proof.
  eexists. split; [reflexivity |].
  destruct (toggle_theme_keeps_other_settings _ _
              (eq_refl : App.toggle_theme App.default_settings = Normal _))
    as [K T].
  split; [rewrite (K "teacherName"); [reflexivity | discriminate] | exact T].
Defined.

(** X11: toggling the theme twice gives back the settings object exactly
    as it was, when its theme was dark or light. *)
Theorem toggle_theme_twice :
  forall (fields : list (string * json)) (theme : string),
    lookup_field "theme" fields = Some (JStr theme) ->
    theme = "dark" \/ theme = "light" ->
    exists once,
      App.toggle_theme (JObj fields) = Normal once
      /\ once <> JObj fields
      /\ App.toggle_theme once = Normal (JObj fields).
Proof.
  intros fs th L D. unfold App.toggle_theme at 1. simpl. rewrite L.
  eexists. split; [reflexivity |]. split.
  - intros E. injection E as E.
    apply (f_equal (lookup_field "theme")) in E.
    rewrite lookup_set_field, L in E.
    destruct D as [-> | ->]; discriminate E.
  - unfold App.toggle_theme. simpl. rewrite lookup_set_field.
    destruct D as [-> | ->]; simpl; by rewrite (set_field_restore _ _ _ _ L).
Qed.

Lemma toggle_theme_twice_witness :
  exists once,
    App.toggle_theme App.default_settings = Normal once
    /\ once <> App.default_settings
    /\ App.toggle_theme once = Normal App.default_settings.
Proof.
  exact (toggle_theme_twice
           [ ("teacherName", JStr "Teacher"); ("signature", JStr "");
             ("platform", JStr "WhatsApp"); ("theme", JStr "dark") ]
           "dark" eq_refl (or_introl eq_refl)).
Defined.

(** X12: the theme effect makes the [dark] class of the body follow the
    setting and touches no other class; after a toggle, the next run of
    the effect flips the presence of the [dark] class. *)
Theorem theme_effect_follows_toggle :
  forall (the_settings toggled : json) (classes classes1 classes2 : gset string),
    App.toggle_theme the_settings = Normal toggled ->
    theme_effect the_settings classes = Normal classes1 ->
    theme_effect toggled classes1 = Normal classes2 ->
    ("dark" ∈ classes2 <-> "dark" ∉ classes1)
    /\ (forall c, c <> "dark" -> (c ∈ classes2 <-> c ∈ classes)).
Proof.
  intros s t cl cl1 cl2 T E1 E2.
  destruct (toggle_theme_theme s t T) as (old & O & N).
  unfold theme_effect in E1, E2. rewrite O in E1. rewrite N in E2.
  injection E1 as <-. injection E2 as <-.
  destruct (App.is_dark old); simpl; split; set_solver.
Qed.

Lemma theme_effect_follows_toggle_witness :
  exists toggled classes1 classes2,
    App.toggle_theme App.default_settings = Normal toggled
    /\ theme_effect App.default_settings {[ "font-sans" ]} = Normal classes1
    /\ theme_effect toggled classes1 = Normal classes2
    /\ "dark" ∈ classes1
    /\ ("dark" ∉ classes2)
    /\ "font-sans" ∈ classes2.
Proof.
  eexists _, _, _.
  split; [reflexivity |]. split; [reflexivity |]. split; [reflexivity |].
  destruct (theme_effect_follows_toggle App.default_settings _
              {[ "font-sans" ]} _ _ eq_refl eq_refl eq_refl) as [D K].
  assert (In1 : "dark" ∈ ({[ "dark" ]} ∪ {[ "font-sans" ]} : gset string))
    by set_solver.
  split; [exact In1 |].
  split; [intros In2; exact (proj1 D In2 In1) |].
  apply K; [discriminate | set_solver].
Defined.

(** ** More on [handleGenerateReply] *)

Section HandlerFacts.

Variable generateContent : GenerateContentParameters -> ApiOutcome.
Variable JSON_parse : string -> option json.
Variable trim : string -> string.
Variable random_index : nat -> nat.

Let handleGenerateReply :=
  App.handleGenerateReply generateContent JSON_parse trim random_index.
Let analyzeContext :=
  geminiService.analyzeContext generateContent JSON_parse trim.

Ltac invocation_cases :=
  unfold handleGenerateReply; handleGenerateReply_cases.

(** X13: [handleGenerateReply] never throws to its caller, whatever the
    model, the stored students and the stored settings are: every error
    is caught.  When it has started the pipeline it always ends with the
    loading flag down; on a blank message it leaves the flag as it was. *)
Theorem handleGenerateReply_never_throws message_arg s0 :
  let result := handleGenerateReply message_arg s0 in
  result.2 = Normal tt
  /\ (trim (App.finalMessage_of message_arg s0) <> "" ->
      App.isLoading result.1.2 = false)
  /\ (trim (App.finalMessage_of message_arg s0) = "" ->
      App.isLoading result.1.2 = App.isLoading s0).
Proof.
  intros result; subst result.
  invocation_cases; [apply String.eqb_eq in B | apply String.eqb_neq in B ..];
    cbn; repeat split; try reflexivity; intros; contradiction.
Qed.

(** X14: what the analysis settled on is shown even when the reply then
    fails: after an invocation on a non-blank message the detected context
    of the state is the result of [analyzeContext], and the message type
    of the state is the [messageType] of that result (it stays as it was
    only when the result is [null]). *)
Theorem handleGenerateReply_keeps_detected_context message_arg s0 :
  trim (App.finalMessage_of message_arg s0) <> "" ->
  let result := handleGenerateReply message_arg s0 in
  exists t c,
    analyzeContext (App.finalMessage_of message_arg s0) = (t, Normal c)
    /\ App.detectedContext result.1.2 = c
    /\ App.messageType result.1.2
       = match get_prop c "messageType" with
         | Normal detected => detected
         | Throw _ => App.messageType s0
         end.
Proof.
  intros NB result; subst result analyzeContext.
  invocation_cases; [apply String.eqb_eq in B; contradiction | ..].
  all: eexists _, c; split; [reflexivity |]; rewrite Hmt; cbn; split;
    reflexivity.
Qed.

(** X15: the arguments of the second stage come from the render that
    created the handler: the message is the final message, the tone is the
    selected reply tone, the platform and the teacher name are read from
    the settings and the student is what [students.find] returned for the
    selected id. *)
Theorem handleGenerateReply_stage_two_arguments message_arg s0 :
  forall i m c tone pf tn st,
    App.pipeline_events (handleGenerateReply message_arg s0).1.1 !! i
      = Some (App.GenerateBilingualReplyCalled m c tone pf tn st) ->
    m = App.finalMessage_of message_arg s0
    /\ tone = Some (JStr (App.replyTone s0))
    /\ get_prop (App.settings s0) "platform" = Normal pf
    /\ get_prop (App.settings s0) "teacherName" = Normal tn
    /\ App.students_find (App.students s0) (App.selectedStudentId s0)
       = Normal st.
Proof.
  intros i m c' tone pf tn st.
  invocation_cases; cbn.
  all: destruct i as [| [| [| [| [| [| i]]]]]]; cbn; try discriminate.
  all: intros [= <- <- <- <- <- <-]; auto.
Qed.

(** X16: when the second stage fails, the user sees the fixed generic
    message and nothing of the cause: the error of the state and the error
    of the progress record are that message, and no reply is shown. *)
Theorem handleGenerateReply_shows_generic_error message_arg s0 :
  forall e,
    App.GenerateBilingualReplySettled (Throw e)
      ∈ App.pipeline_events (handleGenerateReply message_arg s0).1.1 ->
    let s' := (handleGenerateReply message_arg s0).1.2 in
    e = geminiService.generic_reply_error
    /\ App.error s' = Some (message geminiService.generic_reply_error)
    /\ App.progress s' = p_error (message geminiService.generic_reply_error)
    /\ App.replySentences s' = Some (JArr []).
Proof.
  intros e.
  invocation_cases; cbn; intros In_t; apply list_elem_of_In in In_t;
    cbn in In_t; intuition (try discriminate).
  all: match goal with H : _ = App.GenerateBilingualReplySettled _ |- _ =>
         injection H as <- end.
  all: repeat split.
Qed.

(** X17: the smart tip changes only when a reply was generated, and then
    to one of [SMART_TIPS], given a random index within bounds. *)
Theorem handleGenerateReply_picks_a_tip message_arg s0 :
  random_index (length SMART_TIPS) < length SMART_TIPS ->
  let result := handleGenerateReply message_arg s0 in
  ((exists reply,
      App.GenerateBilingualReplySettled (Normal reply)
        ∈ App.pipeline_events result.1.1)
   /\ exists tip,
        tip ∈ SMART_TIPS /\ App.currentTip result.1.2 = Some (JStr tip))
  \/ ((forall reply,
         App.GenerateBilingualReplySettled (Normal reply)
           ∉ App.pipeline_events result.1.1)
      /\ App.currentTip result.1.2 = App.currentTip s0).
Proof.
  intros R result; subst result.
  assert (T : exists tip, tip ∈ SMART_TIPS
                /\ App.pick_tip random_index = Some (JStr tip)).
  { unfold App.pick_tip.
    destruct (lookup_lt_is_Some_2 SMART_TIPS _ R) as [tip L].
    exists tip. split; [exact (list_elem_of_lookup_2 _ _ _ L) |].
    by rewrite L. }
  invocation_cases; cbn.
  all: try (right; split; [| reflexivity]; intros reply In_t;
            apply list_elem_of_In in In_t; cbn in In_t;
            intuition discriminate).
  all: left; split; [| exact T]; eexists; apply list_elem_of_In; cbn;
    auto 10.
Qed.

(** Every value that conforms to the analysis schema has a message type
    of the enumeration. *)
Lemma conforming_message_type c :
  conforms geminiService.contextAnalysisSchema c = true ->
  exists t : MessageType,
    get_prop c "messageType" = Normal (Some (JStr (MessageType_value t))).
Proof.
  destruct c as [| | | | | fs]; try discriminate. simpl.
  destruct (lookup_field "messageType" fs) as [[| | | x | |] |];
    simpl; rewrite ?andb_false_r; try discriminate.
  intros H. apply andb_prop in H as [_ H]. apply andb_prop in H as [H _].
  repeat (apply orb_prop in H as [H | H];
          [apply String.eqb_eq in H; subst x | ]).
  - by exists NEW_STUDENT.
  - by exists CURRENT_STUDENT.
  - by exists ABSENT_STUDENT.
  - by exists RESCHEDULE.
  - by exists PAYMENT.
  - by exists GENERAL.
  - discriminate H.
Qed.

(** X18: the message type that the handler copies from the analysis into
    the state is one the message type select can show, whenever the
    analysis settled on a value that conforms to its schema (as the
    fallback does). *)
Theorem handleGenerateReply_message_type_is_an_option message_arg s0 :
  forall t c,
    trim (App.finalMessage_of message_arg s0) <> "" ->
    analyzeContext (App.finalMessage_of message_arg s0) = (t, Normal c) ->
    conforms geminiService.contextAnalysisSchema c = true ->
    exists o,
      o ∈ MESSAGE_TYPE_OPTIONS
      /\ App.messageType (handleGenerateReply message_arg s0).1.2
         = Some (JStr (value_ o)).
Proof.
  intros t c NB A C. subst analyzeContext.
  destruct (conforming_message_type c C) as [mtype M].
  assert (O : exists o, o ∈ MESSAGE_TYPE_OPTIONS
                /\ Some (JStr (MessageType_value mtype))
                   = Some (JStr (value_ o))).
  { destruct mtype; eexists; (split; [apply list_elem_of_In; cbn |]);
      [ left | | right; left | | do 2 right; left | | do 3 right; left |
      | do 4 right; left | | do 5 right; left | ]; reflexivity. }
  destruct O as (o & In_o & V). exists o. split; [exact In_o |].
  rewrite <- V. clear V In_o o. revert A.
  invocation_cases; [apply String.eqb_eq in B; contradiction | ..].
  all: intros [= <- <-]; rewrite M in Hmt; try discriminate Hmt.
  all: injection Hmt as <-; reflexivity.
Qed.

(** X19: a failed analysis does not stop the pipeline.  When the analysis
    request is rejected, and the student and the settings can be read, the
    second stage is called with the fallback context, and the state shows
    the fallback as the detected context, with message type "General
    question". *)
Theorem handleGenerateReply_continues_after_failed_analysis message_arg s0 :
  forall e st pf tn,
    trim (App.finalMessage_of message_arg s0) <> "" ->
    generateContent
      (geminiService.analysis_request (App.finalMessage_of message_arg s0))
    = Rejected e ->
    App.students_find (App.students s0) (App.selectedStudentId s0)
      = Normal st ->
    get_prop (App.settings s0) "platform" = Normal pf ->
    get_prop (App.settings s0) "teacherName" = Normal tn ->
    let result := handleGenerateReply message_arg s0 in
    App.pipeline_events result.1.1 !! 3
      = Some (App.GenerateBilingualReplyCalled
                (App.finalMessage_of message_arg s0)
                geminiService.fallback_context
                (Some (JStr (App.replyTone s0))) pf tn st)
    /\ App.detectedContext result.1.2 = geminiService.fallback_context
    /\ App.messageType result.1.2
       = Some (JStr (MessageType_value GENERAL)).
Proof.
  intros e st pf tn NB R Hs Hp Ht result; subst result.
  pose proof (analyzeContext_rejected generateContent JSON_parse trim _ e R)
    as A.
  invocation_cases; [apply String.eqb_eq in B; contradiction | ..].
  all: rewrite A in E; inversion E; subst; clear E.
  all: simpl in Hmt; try discriminate Hmt; injection Hmt as <-.
  all: try discriminate Hs; try discriminate Hp; try discriminate Ht.
  all: injection Hs as <-; injection Hp as <-; injection Ht as <-.
  all: cbn; repeat split.
Qed.

End HandlerFacts.

Lemma handleGenerateReply_keeps_detected_context_witness :
  let offline := Rejected (mkError TypeError "Failed to fetch") in
  let message_arg := Some "I am enjoying the lessons" in
  Reference.trim (App.finalMessage_of message_arg first_render) <> ""
  /\ exists t,
       geminiService.analyzeContext (Reference.model offline offline)
         Reference.JSON_parse Reference.trim
         (App.finalMessage_of message_arg first_render)
       = (t, Normal geminiService.fallback_context)
       /\ App.detectedContext (run_with offline offline message_arg).1.2
          = geminiService.fallback_context.
Proof.
  intros offline message_arg.
  assert (NB : Reference.trim (App.finalMessage_of message_arg first_render)
               <> "") by (intros H; vm_compute in H; discriminate H).
  split; [exact NB |].
  pose proof (handleGenerateReply_keeps_detected_context
                (Reference.model offline offline) Reference.JSON_parse
                Reference.trim Reference.random_index message_arg first_render
                NB) as X.
  cbv zeta in X. destruct X as (t & c & E & D & _).
  assert (C : c = geminiService.fallback_context).
  { pose proof E as E'. vm_compute in E'. injection E' as _ <-.
    reflexivity. }
  rewrite C in E, D. exists t. split; [exact E | exact D].
Defined.

Lemma handleGenerateReply_stage_two_arguments_witness :
  let message_arg := Some "I am enjoying the lessons" in
  let context :=
    JObj [ ("messageType", JStr "Current student");
           ("sentiment", JStr "Positive"); ("detectedLanguage", JStr "en") ] in
  App.pipeline_events (run_with good_analysis good_reply message_arg).1.1 !! 3
    = Some (App.GenerateBilingualReplyCalled "I am enjoying the lessons"
              context (Some (JStr "Friendly")) (Some (JStr "WhatsApp"))
              (Some (JStr "Teacher")) undefined)
  /\ App.students_find (App.students first_render)
       (App.selectedStudentId first_render) = Normal undefined
  /\ get_prop (App.settings first_render) "platform"
     = Normal (Some (JStr "WhatsApp")).
Proof.
  intros message_arg context.
  assert (L : App.pipeline_events
                (run_with good_analysis good_reply message_arg).1.1 !! 3
              = Some (App.GenerateBilingualReplyCalled
                        "I am enjoying the lessons" context
                        (Some (JStr "Friendly")) (Some (JStr "WhatsApp"))
                        (Some (JStr "Teacher")) undefined))
    by (vm_compute; reflexivity).
  split; [exact L |].
  destruct (handleGenerateReply_stage_two_arguments
              (Reference.model good_analysis good_reply) Reference.JSON_parse
              Reference.trim Reference.random_index message_arg first_render
              3 _ _ _ _ _ _ L) as (_ & _ & P & _ & S).
  split; [exact S | exact P].
Defined.

Lemma handleGenerateReply_shows_generic_error_witness :
  let offline := Rejected (mkError TypeError "Failed to fetch") in
  let r := run_with offline offline (Some "I am enjoying the lessons") in
  App.GenerateBilingualReplySettled
    (Throw geminiService.generic_reply_error)
    ∈ App.pipeline_events r.1.1
  /\ App.error r.1.2 = Some (message geminiService.generic_reply_error)
  /\ App.replySentences r.1.2 = Some (JArr []).
Proof.
  intros offline r.
  assert (In_t : App.GenerateBilingualReplySettled
                   (Throw geminiService.generic_reply_error)
                   ∈ App.pipeline_events r.1.1)
    by (apply list_elem_of_In; vm_compute; auto 10).
  split; [exact In_t |].
  destruct (handleGenerateReply_shows_generic_error
              (Reference.model offline offline) Reference.JSON_parse
              Reference.trim Reference.random_index
              (Some "I am enjoying the lessons") first_render _ In_t)
    as (_ & Er & _ & R).
  split; [exact Er | exact R].
Defined.

Lemma handleGenerateReply_picks_a_tip_witness :
  let r := run_with good_analysis good_reply
             (Some "I am enjoying the lessons") in
  Reference.random_index (length SMART_TIPS) < length SMART_TIPS
  /\ exists tip, tip ∈ SMART_TIPS /\ App.currentTip r.1.2 = Some (JStr tip).
Proof.
  intros r.
  assert (R : Reference.random_index (length SMART_TIPS) < length SMART_TIPS)
    by (unfold Reference.random_index; simpl; lia).
  split; [exact R |].
  destruct (handleGenerateReply_picks_a_tip
              (Reference.model good_analysis good_reply) Reference.JSON_parse
              Reference.trim Reference.random_index
              (Some "I am enjoying the lessons") first_render R)
    as [[_ T] | [N _]].
  - exact T.
  - exfalso. eapply N. apply list_elem_of_In. vm_compute. auto 10.
Defined.

Lemma handleGenerateReply_message_type_is_an_option_witness :
  let message_arg := Some "I am enjoying the lessons" in
  let context :=
    JObj [ ("messageType", JStr "Current student");
           ("sentiment", JStr "Positive"); ("detectedLanguage", JStr "en") ] in
  Reference.trim (App.finalMessage_of message_arg first_render) <> ""
  /\ conforms geminiService.contextAnalysisSchema context = true
  /\ exists o,
       o ∈ MESSAGE_TYPE_OPTIONS
       /\ App.messageType (run_with good_analysis good_reply message_arg).1.2
          = Some (JStr (value_ o)).
Proof.
  intros message_arg context.
  assert (NB : Reference.trim (App.finalMessage_of message_arg first_render)
               <> "") by (intros H; vm_compute in H; discriminate H).
  split; [exact NB |]. split; [reflexivity |].
  refine (handleGenerateReply_message_type_is_an_option
            (Reference.model good_analysis good_reply) Reference.JSON_parse
            Reference.trim Reference.random_index message_arg first_render
            _ context NB _ eq_refl).
  vm_compute. reflexivity.
Defined.

Lemma handleGenerateReply_continues_after_failed_analysis_witness :
  let offline := Rejected (mkError TypeError "Failed to fetch") in
  let message_arg := Some "I am enjoying the lessons" in
  let r := run_with offline good_reply message_arg in
  Reference.trim (App.finalMessage_of message_arg first_render) <> ""
  /\ App.pipeline_events r.1.1 !! 3
     = Some (App.GenerateBilingualReplyCalled "I am enjoying the lessons"
               geminiService.fallback_context (Some (JStr "Friendly"))
               (Some (JStr "WhatsApp")) (Some (JStr "Teacher")) undefined)
  /\ App.messageType r.1.2 = Some (JStr "General question").
Proof.
  intros offline message_arg r.
  assert (NB : Reference.trim (App.finalMessage_of message_arg first_render)
               <> "") by (intros H; vm_compute in H; discriminate H).
  split; [exact NB |].
  destruct (handleGenerateReply_continues_after_failed_analysis
              (Reference.model offline good_reply) Reference.JSON_parse
              Reference.trim Reference.random_index message_arg first_render
              _ undefined (Some (JStr "WhatsApp")) (Some (JStr "Teacher"))
              NB eq_refl eq_refl eq_refl eq_refl) as (L & _ & M).
  split; [exact L | exact M].
Defined.

(** ** The clipboard and the student list *)

(** X20: where the browser has a Clipboard API, [handleCopyToClipboard]
    never throws to its caller, for any text, the empty string included,
    and also when the write is rejected.  Only a successful write changes
    the state: the copy status becomes the given id and language, and a
    timer of two seconds is set; a rejected write leaves the state as it
    was. *)
Theorem handleCopyToClipboard_with_api :
  forall (writeText : string -> Completion unit) (text id lang : string)
         (s : App.AppState),
    let result := App.handleCopyToClipboard (Some writeText) text id lang s in
    result.2 = Normal tt
    /\ (forall u, writeText text = Normal u ->
          result.1.2 = App.with_copyStatus (Some (id, lang)) s
          /\ result.1.1.*1 = [App.SetTimeout 2000])
    /\ (forall e, writeText text = Throw e -> result.1 = ([], s)).
Proof.
  intros writeText text id lang s result; subst result.
  unfold App.handleCopyToClipboard.
  destruct (writeText text); repeat split; intros; try discriminate;
    reflexivity.
Qed.

(** X21: [students.find] returns the first stored student whose id is
    strictly equal to the selected id, and [undefined] when no student has
    that id; the students before the one found have other ids. *)
Theorem students_find_first_match :
  forall (l : list json) (selected : option string) (found : value),
    App.students_find (JArr l) selected = Normal found ->
    let other s :=
      exists id, get_prop s "id" = Normal id
                 /\ App.strict_eq_id id selected = false in
    match found with
    | Some s =>
        exists before after id,
          l = before ++ s :: after
          /\ Forall other before
          /\ get_prop s "id" = Normal id
          /\ App.strict_eq_id id selected = true
    | None => Forall other l
    end.
Proof.
  intros l sel found. simpl. revert found.
  induction l as [| s l IH]; simpl; intros found.
  - intros [= <-]. constructor.
  - destruct (get_prop s "id") as [id | e] eqn:I; [| discriminate].
    destruct (App.strict_eq_id id sel) eqn:M.
    + intros [= <-]. exists [], l, id. repeat split; [constructor | exact I | exact M].
    + intros F. specialize (IH found F). destruct found as [s' |].
      * destruct IH as (before & after & id' & -> & O & I' & M').
        exists (s :: before), after, id'. repeat split; try assumption.
        constructor; [exists id; auto | exact O].
      * constructor; [exists id; auto | exact IH].
Qed.

Lemma students_find_first_match_witness :
  let amina := JObj [("id", JStr "s2"); ("name", JStr "Amina")] in
  let l := [ JObj [("id", JStr "s1"); ("name", JStr "Omar")]; amina;
             JObj [("id", JStr "s2"); ("name", JStr "Bilal")] ] in
  App.students_find (JArr l) (Some "s2") = Normal (Some amina)
  /\ exists before after,
       l = before ++ amina :: after /\ length before = 1.
Proof.
  intros amina l.
  assert (F : App.students_find (JArr l) (Some "s2") = Normal (Some amina))
    by reflexivity.
  split; [exact F |].
  destruct (students_find_first_match l (Some "s2") _ F)
    as (before & after & id & E & O & _ & _).
  exists before, after. split; [exact E |].
  subst l amina.
  destruct before as [| b [| b' before]]; simpl in E.
  - injection E as E _. discriminate E.
  - reflexivity.
  - exfalso. injection E as _ E _.
    apply Forall_cons in O as [_ O]. apply Forall_cons in O as [O _].
    destruct O as (id' & I & M). subst b'. simpl in I.
    injection I as <-. discriminate M.
Defined.
